(** * ClassicUPS: the shipment and tracking client of [ClassicUPS/ups.py]

    A shallow embedding of the Python module and the properties of its
    document builder, of the confirm/accept exchange and of the result
    accessors.

    Python values are a small universe of JSON-like data (what
    [json.loads] returns, plus tuples and sets, which callers may pass);
    dictionaries are finite maps with string keys.  Exceptions are a
    result type; the calls that reach the network thread a log of the
    requests sent.  The libraries the module imports ([dict2xml],
    [xmltodict], [urllib], [datetime], [binascii]) are parameters.

    Two names differ from the source because they are taken: the
    attribute [result] of [TrackingInfo] is [result_], and the property
    [tracking_number] of [Shipment] is [shipment_tracking_number].  The
    property [cost] (a conversion to [float]) and [save_label] (a write
    to a file object) are left out, as is the text of the debug log. *)

From stdpp Require Import gmap strings list fin_maps.
From Stdlib Require Import ZArith Ascii.

Set Warnings "-register-all".
Local Open Scope string_scope.
Local Open Scope list_scope.

(** ** Python values *)

Inductive value : Type :=
| VNone
| VBool (b : bool)
| VInt (z : Z)
| VStr (s : string)
| VList (l : list value)
| VTuple (l : list value)
| VSet (l : list value)          (* elements in iteration order *)
| VDict (d : gmap string value).

Inductive exn : Type :=
| KeyError (key : value)
| TypeError
| AttributeError
| ValueError
| IOError
| BinasciiError
| Exception (arg : value).

Inductive result (A : Type) : Type :=
| OK (a : A)
| Err (e : exn).
Arguments OK {A} a.
Arguments Err {A} e.

#[global] Instance result_ret : MRet result := fun A a => OK a.
#[global] Instance result_bind : MBind result := fun A B f m =>
  match m with
  | OK a => f a
  | Err e => Err e
  end.

Definition is_ok {A} (r : result A) : bool :=
  match r with OK _ => true | Err _ => false end.

(** [for x in l: ... f(x) ...] collecting results, stopping at the first
    exception. *)
Fixpoint mapM {A B} (f : A -> result B) (l : list A) : result (list B) :=
  match l with
  | [] => OK []
  | x :: xs => y ← f x; ys ← mapM f xs; OK (y :: ys)
  end.

(** [[x for x in l if p(x)]] where the test may raise. *)
Fixpoint filterM {A} (p : A -> result bool) (l : list A) : result (list A) :=
  match l with
  | [] => OK []
  | x :: xs => b ← p x; ys ← filterM p xs; OK (if (b : bool) then x :: ys else ys)
  end.

(** ** Primitive operations of the language *)

(** Truth value of an object, as tested by [if x:] and [x or y]. *)
Definition truthy (v : value) : bool :=
  match v with
  | VNone => false
  | VBool b => b
  | VInt z => negb (Z.eqb z 0)
  | VStr s => negb (String.eqb s "")
  | VList l | VTuple l | VSet l => match l with [] => false | _ => true end
  | VDict d => negb (bool_decide (d = ∅))
  end.

(** Lists, sets and dictionaries cannot be hashed, nor can a tuple that
    holds one. *)
Fixpoint hashable (v : value) : bool :=
  match v with
  | VList _ | VSet _ | VDict _ => false
  | VTuple l => forallb hashable l
  | _ => true
  end.

(** [d[k]] on a dictionary with string keys, for any key object. *)
Definition dict_getitem (d : gmap string value) (k : value) : result value :=
  if hashable k then
    match k with
    | VStr s => match d !! s with Some v => OK v | None => Err (KeyError k) end
    | _ => Err (KeyError k)
    end
  else Err TypeError.

(** [d.get(k, default)] on a dictionary with string keys. *)
Definition dict_get (d : gmap string value) (k : value) (dflt : value)
  : result value :=
  if hashable k then
    match k with
    | VStr s => OK (default dflt (d !! s))
    | _ => OK dflt
    end
  else Err TypeError.

(** [v[k]] for a string subscript [k]. *)
Definition getitem (v : value) (k : string) : result value :=
  match v with
  | VDict d => dict_getitem d (VStr k)
  | _ => Err TypeError
  end.

(** [v.get(k, default)]: only dictionaries have the method. *)
Definition get (v : value) (k : string) (dflt : value) : result value :=
  match v with
  | VDict d => dict_get d (VStr k) dflt
  | _ => Err AttributeError
  end.

(** [v[k] = x] for a string subscript [k]; the updated object. *)
Definition setitem (v : value) (k : string) (x : value) : result value :=
  match v with
  | VDict d => OK (VDict (<[k := x]> d))
  | _ => Err TypeError
  end.

(** [v[p1]...[pn][k] = x]: the subscripts of the target are read from the
    left, the last one is assigned; the objects on the way are updated in
    place. *)
Fixpoint setitem_path (v : value) (path : list string) (k : string) (x : value)
  : result value :=
  match path with
  | [] => setitem v k x
  | p :: ps =>
      sub ← getitem v p;
      sub' ← setitem_path sub ps k x;
      setitem v p sub'
  end.

(** [v[p1]...[pn]]. *)
Fixpoint getitem_path (v : value) (path : list string) : result value :=
  match path with
  | [] => OK v
  | p :: ps => sub ← getitem v p; getitem_path sub ps
  end.

(** The characters of a string, as one-character strings. *)
Fixpoint chars (s : string) : list value :=
  match s with
  | EmptyString => []
  | String c s' => VStr (String c EmptyString) :: chars s'
  end.

(** [iter(v)]: the elements a [for] loop or an unpacking sees. *)
Definition py_iter (v : value) : result (list value) :=
  match v with
  | VList l | VTuple l | VSet l => OK l
  | VStr s => OK (chars s)
  | VDict d => OK (VStr <$> (map_to_list d).*1)
  | _ => Err TypeError
  end.

(** [v == s] for a string literal [s]. *)
Definition eq_str (v : value) (s : string) : bool :=
  match v with
  | VStr s' => String.eqb s' s
  | _ => false
  end.

(** [s in v] for a string literal [s]. *)
Fixpoint substring_at (s t : string) : bool :=
  match s, t with
  | EmptyString, _ => true
  | String a s', String b t' => Ascii.eqb a b && substring_at s' t'
  | String _ _, EmptyString => false
  end.

Fixpoint is_substring (s t : string) : bool :=
  substring_at s t ||
  match t with
  | EmptyString => false
  | String _ t' => is_substring s t'
  end.

Definition contains (v : value) (s : string) : result bool :=
  match v with
  | VDict d => OK (bool_decide (is_Some (d !! s)))
  | VList l | VTuple l | VSet l => OK (existsb (fun x => eq_str x s) l)
  | VStr t => OK (is_substring s t)
  | _ => Err TypeError
  end.

Definition isinstance_str (v : value) : bool :=
  match v with VStr _ => true | _ => false end.

Definition isinstance_list_set_tuple (v : value) : bool :=
  match v with VList _ | VSet _ | VTuple _ => true | _ => false end.

Definition isinstance_dict (v : value) : bool :=
  match v with VDict _ => true | _ => false end.

Definition type_is_list (v : value) : bool :=
  match v with VList _ => true | _ => false end.

(** ** The imported libraries and the network *)

(** [datetime.strptime] returns a date at midnight. *)
Record datetime : Type := Datetime { year : Z; month : Z; day : Z }.

(** What the module imports and does not define: the two document
    converters, the HTTP call ([urllib.urlopen(url, data).read()]), the
    date parser and the base64 decoder.  [xmltodict_parse] stands for
    [json.loads(json.dumps(xmltodict.parse(xml)))]. *)
Class Library : Type := {
  dict2xml : value -> string;
  xmltodict_parse : string -> result value;
  urlopen : string -> string -> result string;
  strptime : value -> string -> result datetime;
  a2b_base64 : value -> result string;
}.

(** A request that reached the network. *)
Record sent : Type := Sent {
  sent_action : string;
  sent_url : string;
  sent_request : value;
  sent_body : string;
}.

(** Computations that may raise and that append to the log of requests
    sent; the log survives an exception. *)
Definition io (A : Type) : Type := list sent -> result A * list sent.

#[global] Instance io_ret : MRet io := fun A a log => (OK a, log).
#[global] Instance io_bind : MBind io := fun A B f m log =>
  match m log with
  | (OK a, log') => f a log'
  | (Err e, log') => (Err e, log')
  end.

Definition lift {A} (r : result A) : io A := fun log => (r, log).

(** How many requests of the log went out under the operation [action]. *)
Definition call_count (action : string) (log : list sent) : nat :=
  length (filter (fun c => sent_action c = action) log).

(** ** [UPSConnection] *)

Record UPSConnection : Type := {
  license_number : value;
  user_id : value;
  password : value;
  shipper_number : value;
  debug : bool;
}.

Definition test_urls : gmap string value :=
  {[ "track" := VStr "https://wwwcie.ups.com/ups.app/xml/Track";
     "ship_confirm" := VStr "https://wwwcie.ups.com/ups.app/xml/ShipConfirm";
     "ship_accept" := VStr "https://wwwcie.ups.com/ups.app/xml/ShipAccept" ]}.

Definition production_urls : gmap string value :=
  {[ "track" := VStr "https://onlinetools.ups.com/ups.app/xml/Track";
     "ship_confirm" := VStr "https://onlinetools.ups.com/ups.app/xml/ShipConfirm";
     "ship_accept" := VStr "https://onlinetools.ups.com/ups.app/xml/ShipAccept" ]}.

Definition nl : string := String "010"%char EmptyString.
Definition dq : string := String "034"%char EmptyString.
Definition xml_decl : string := "<?xml version=" +:+ dq +:+ "1.0" +:+ dq +:+ "?>".
Definition indent : string := "        ".

Definition url_string (v : value) : string :=
  match v with VStr s => s | _ => "" end.

(** ** [UPSResult] *)

Record UPSResult : Type := { response : string }.

Section WithLibrary.
Context `{Lib : Library}.

Definition xml_response (self : UPSResult) : string := response self.

(** Parsed on every access. *)
Definition dict_response (self : UPSResult) : result value :=
  xmltodict_parse (xml_response self).

Definition _generate_xml (self : UPSConnection) (url_action : string)
  (ups_request : value) : string :=
  let access_request := VDict {[
    "AccessRequest" := VDict {[
      "AccessLicenseNumber" := license_number self;
      "UserId" := user_id self;
      "Password" := password self ]} ]} in
  nl +:+ indent +:+ xml_decl +:+ nl
     +:+ indent +:+ dict2xml access_request +:+ nl +:+ nl
     +:+ indent +:+ xml_decl +:+ nl
     +:+ indent +:+ dict2xml ups_request +:+ nl +:+ indent.

(** The HTTP exchange, [urllib.urlopen(url, body).read()]: the request is
    recorded, then answered.  The body is the document encoded in ASCII,
    which leaves the byte strings of the model as they are. *)
Definition send (url_action url : string) (ups_request : value) (body : string)
  : io string :=
  fun log => (urlopen url body, (log ++ [Sent url_action url ups_request body])%list).

Definition _transmit_request (self : UPSConnection) (url_action : string)
  (ups_request : value) : io UPSResult :=
  url ← lift (dict_getitem production_urls (VStr url_action));
  url ← (if debug self then lift (dict_getitem test_urls (VStr url_action))
         else mret url);
  let xml := _generate_xml self url_action ups_request in
  resp ← send url_action (url_string url) ups_request xml;
  let resp := {| response := resp |} in
  (* the debug log prints the parsed response *)
  _ ← (if debug self then lift (dict_response resp) else mret VNone);
  mret resp.

(** ** [TrackingInfo] *)

Record TrackingInfo : Type := {
  tracking_number : value;
  result_ : UPSResult;
}.

Definition TrackingInfo_init (ups_conn : UPSConnection) (tracking_number : value)
  : io TrackingInfo :=
  let tracking_request := VDict {[
    "TrackRequest" := VDict {[
      "Request" := VDict {[
        "TransactionReference" := VDict {[
          "CustomerContext" := VStr "Get tracking status";
          "XpciVersion" := VStr "1.0" ]};
        "RequestAction" := VStr "Track";
        "RequestOption" := VStr "activity" ]};
      "TrackingNumber" := tracking_number ]} ]} in
  r ← _transmit_request ups_conn "track" tracking_request;
  mret {| tracking_number := tracking_number; result_ := r |}.

Definition shipment_activities (self : TrackingInfo) : result value :=
  d ← dict_response (result_ self);
  shipment_activities ←
    getitem_path d ["TrackResponse"; "Shipment"; "Package"; "Activity"];
  if negb (type_is_list shipment_activities)
  then OK (VList [shipment_activities])
  else OK shipment_activities.

(** [x['Status']['StatusType']['Code'] == code] *)
Definition status_code_is (code : string) (x : value) : result bool :=
  c ← getitem_path x ["Status"; "StatusType"; "Code"];
  OK (eq_str c code).

Definition delivered (self : TrackingInfo) : result (option datetime) :=
  acts ← shipment_activities self;
  acts ← py_iter acts;
  delivered ← filterM (status_code_is "D") acts;
  match delivered with
  | d0 :: _ =>
      date ← getitem d0 "Date";
      dt ← strptime date "%Y%m%d";
      OK (Some dt)
  | [] => OK None
  end.

Definition in_transit (self : TrackingInfo) : result bool :=
  acts ← shipment_activities self;
  acts ← py_iter acts;
  in_transit ← filterM (status_code_is "I") acts;
  OK (Nat.ltb 0 (length in_transit)).

(** [datetime.strptime(x['Date'], '%Y%m%d')], the value [delivered]
    returns for the activity [x] it picked. *)
Definition delivery_date (x : value) : result (option datetime) :=
  date ← getitem x "Date";
  dt ← strptime date "%Y%m%d";
  OK (Some dt).

(** ** [Shipment] *)

Definition SHIPPING_SERVICES : gmap string value :=
  list_to_map [
    ("1dayair", VStr "01");
    ("2dayair", VStr "02");
    ("ground", VStr "03");
    ("express", VStr "07");
    ("worldwide_expedited", VStr "08");
    ("standard", VStr "11");
    ("3_day_select", VStr "12");
    ("next_day_air_saver", VStr "13");
    ("next_day_air_early_am", VStr "14");
    ("express_plus", VStr "54");
    ("2nd_day_air_am", VStr "59");
    ("ups_saver", VStr "65");
    ("ups_today_standard", VStr "82");
    ("ups_today_dedicated_courier", VStr "83");
    ("ups_today_intercity", VStr "84");
    ("ups_today_express", VStr "85");
    ("ups_today_express_saver", VStr "86") ].

Definition DCIS_TYPES : gmap string value :=
  {[ "no_signature" := VInt 1;
     "signature_required" := VInt 2;
     "adult_signature_required" := VInt 3;
     "usps_delivery_confiratmion" := VInt 4 ]}.

(** The arguments of [Shipment.__init__] after [ups_conn]; the defaults
    of the optional ones are in [default_args]. *)
Record ShipmentArgs : Type := {
  from_addr : value;
  to_addr : value;
  package_infos : value;
  alternate_addr : value;
  file_format : value;
  reference_numbers : value;
  shipping_service : value;
  description : value;
  delivery_confirmation : value;
}.

Definition default_args (from_addr to_addr package_infos : value) : ShipmentArgs :=
  {| from_addr := from_addr; to_addr := to_addr; package_infos := package_infos;
     alternate_addr := VNone; file_format := VStr "EPL";
     reference_numbers := VNone; shipping_service := VNone;
     description := VStr ""; delivery_confirmation := VNone |}.

(** The same arguments with another [package_infos]. *)
Definition with_package_infos (a : ShipmentArgs) (v : value) : ShipmentArgs :=
  {| from_addr := from_addr a; to_addr := to_addr a; package_infos := v;
     alternate_addr := alternate_addr a; file_format := file_format a;
     reference_numbers := reference_numbers a;
     shipping_service := shipping_service a; description := description a;
     delivery_confirmation := delivery_confirmation a |}.

Record Shipment : Type := {
  self_file_format : value;
  confirm_result : UPSResult;
  accept_result : UPSResult;
}.

(** The body of the loop over [package_infos]: one package block. *)
Definition package_vals (package_info : value) : result value :=
  desc ← get package_info "desc" VNone;
  type ← get package_info "type" (VStr "02");
  weight_unit ← get package_info "weight_unit" (VStr "LBS");
  weight ← getitem package_info "weight";
  let vals : gmap string value := {[
    "Description" := desc;
    "PackagingType" := VDict {[ "Code" := type ]};
    "PackageWeight" := VDict {[
      "UnitOfMeasurement" := VDict {[ "Code" := weight_unit ]};
      "Weight" := weight ]};
    "PackageServiceOptions" := VDict ∅ ]} in
  fill_dimension ← get package_info "fill_dimension" (VBool true);
  if truthy fill_dimension then
    dimensions_unit ← get package_info "dimensions_unit" (VStr "IN");
    length ← getitem package_info "length";
    width ← getitem package_info "width";
    height ← getitem package_info "height";
    OK (VDict (<["Dimensions" := VDict {[
      "UnitOfMeasurement" := VDict {[ "Code" := dimensions_unit ]};
      "Length" := length;
      "Width" := width;
      "Height" := height ]}]> vals))
  else OK (VDict vals).

(** [addr.get('attn') if addr.get('attn') else addr['name']] *)
Definition attention_name (addr : value) : result value :=
  attn ← get addr "attn" VNone;
  if truthy attn then get addr "attn" VNone else getitem addr "name".

(** The [Address] block common to the three kinds of address. *)
Definition address_block (addr : value) : result value :=
  address1 ← getitem addr "address1";
  city ← getitem addr "city";
  state ← getitem addr "state";
  country ← getitem addr "country";
  postal_code ← getitem addr "postal_code";
  OK (VDict {[
    "AddressLine1" := address1;
    "City" := city;
    "StateProvinceCode" := state;
    "CountryCode" := country;
    "PostalCode" := postal_code ]}).

(** [shipping_service or {...}], then a bare string becomes a code. *)
Definition shipping_service_dict (shipping_service : value) : value :=
  let shipping_service :=
    if truthy shipping_service then shipping_service
    else VDict {[ "code" := VStr "ground"; "desc" := VStr "Ground" ]} in
  if isinstance_str shipping_service
  then VDict {[ "code" := shipping_service ]}
  else shipping_service.

(** [package_infos] as the loop sees it. *)
Definition package_info_list (package_infos : value) : result (list value) :=
  if negb (isinstance_list_set_tuple package_infos)
  then OK [package_infos]
  else py_iter package_infos.

(** The document as first written, before the conditional additions. *)
Definition base_request (ups_conn : UPSConnection) (a : ShipmentArgs)
  : result value :=
  let shipping_service := shipping_service_dict (shipping_service a) in
  package_infos ← package_info_list (package_infos a);
  ups_packages ← mapM package_vals package_infos;
  let from_addr := from_addr a in
  let to_addr := to_addr a in
  from_name ← getitem from_addr "name";
  from_attn ← attention_name from_addr;
  from_phone ← getitem from_addr "phone";
  from_email ← get from_addr "email" (VStr "");
  from_address ← address_block from_addr;
  to_name ← getitem to_addr "name";
  to_attn ← attention_name to_addr;
  to_phone ← get to_addr "phone" VNone;
  to_email ← get to_addr "email" (VStr "");
  to_address ← address_block to_addr;
  code ← getitem shipping_service "code";
  code' ← getitem shipping_service "code";
  service_code ← dict_get SHIPPING_SERVICES code code';
  service_desc ← get shipping_service "desc" VNone;
  OK (VDict {[
    "ShipmentConfirmRequest" := VDict {[
      "Request" := VDict {[
        "TransactionReference" := VDict {[
          "CustomerContext" := VStr "get new shipment";
          "XpciVersion" := VStr "1.0001" ]};
        "RequestAction" := VStr "ShipConfirm";
        "RequestOption" := VStr "nonvalidate" ]};
      "Shipment" := VDict {[
        "Shipper" := VDict {[
          "Name" := from_name;
          "AttentionName" := from_attn;
          "PhoneNumber" := from_phone;
          "ShipperNumber" := shipper_number ups_conn;
          "EMailAddress" := from_email;
          "Address" := from_address ]};
        "ShipTo" := VDict {[
          "CompanyName" := to_name;
          "AttentionName" := to_attn;
          "PhoneNumber" := to_phone;
          "EMailAddress" := to_email;
          "Address" := to_address ]};
        "Service" := VDict {[
          "Code" := service_code;
          "Description" := service_desc ]};
        "PaymentInformation" := VDict {[
          "Prepaid" := VDict {[
            "BillShipper" := VDict {[
              "AccountNumber" := shipper_number ups_conn ]} ]} ]};
        "Package" := VList ups_packages ]};
      "LabelSpecification" := VDict {[
        "LabelPrintMethod" := VDict {[ "Code" := file_format a ]};
        "LabelStockSize" := VDict {[
          "Width" := VStr "6";
          "Height" := VStr "4" ]};
        "HTTPUserAgent" := VStr "Mozilla/4.5";
        "LabelImageFormat" := VDict {[ "Code" := VStr "GIF" ]} ]} ]} ]}).

(** [ref_code, ref_number = ref_number] inside [try ... except: pass]:
    an object that unpacks into two elements replaces both variables,
    any other leaves them as [enumerate] set them. *)
Definition unpack_pair (v : value) : option (value * value) :=
  match py_iter v with
  | OK [a; b] => Some (a, b)
  | _ => None
  end.

(** The loop over [enumerate(reference_numbers, start)]. *)
Fixpoint reference_entries (start : Z) (l : list value) : list value :=
  match l with
  | [] => []
  | x :: xs =>
      let '(ref_code, ref_number) := default (VInt start, x) (unpack_pair x) in
      VDict {[ "Code" := ref_code; "Value" := ref_number ]}
        :: reference_entries (start + 1) xs
  end.

Definition shipment_path : list string := ["ShipmentConfirmRequest"; "Shipment"].

(** [shipping_request['ShipmentConfirmRequest']['Shipment'][q]] *)
Definition shipment_entry (q : string) (shipping_request : value) : result value :=
  getitem_path shipping_request (shipment_path ++ [q]).

(** [if delivery_confirmation: ...] *)
Definition add_delivery_confirmation (a : ShipmentArgs) (shipping_request : value)
  : result value :=
  if truthy (delivery_confirmation a) then
    dcis ← dict_getitem DCIS_TYPES (delivery_confirmation a);
    setitem_path shipping_request
      (shipment_path ++ ["Package"; "PackageServiceOptions"])%list
      "DeliveryConfirmation" (VDict {[ "DCISType" := dcis ]})
  else OK shipping_request.

(** [if alternate_addr: ...] *)
Definition add_alternate_addr (a : ShipmentArgs) (shipping_request : value)
  : result value :=
  let alternate_addr := alternate_addr a in
  if truthy alternate_addr then
    name ← getitem alternate_addr "name";
    attn ← attention_name alternate_addr;
    address ← address_block alternate_addr;
    setitem_path shipping_request shipment_path "AlternateDeliveryAddress"
      (VDict {[ "Name" := name; "AttentionName" := attn; "Address" := address ]})
  else OK shipping_request.

(** [if to_addr.get('location_id'): ...] *)
Definition add_location_id (a : ShipmentArgs) (shipping_request : value)
  : result value :=
  location_id ← get (to_addr a) "location_id" VNone;
  if truthy location_id then
    location_id ← get (to_addr a) "location_id" VNone;
    shipping_request ← setitem_path shipping_request
      (shipment_path ++ ["ShipTo"])%list "LocationID" location_id;
    setitem_path shipping_request shipment_path "ShipmentIndicationType"
      (VDict {[ "Code" := VStr "01" ]})
  else OK shipping_request.

(** [from_addr['country'] == 'US' and to_addr['country'] == 'US'] *)
Definition both_US (a : ShipmentArgs) : result bool :=
  from_country ← getitem (from_addr a) "country";
  if eq_str from_country "US" then
    to_country ← getitem (to_addr a) "country";
    OK (eq_str to_country "US")
  else OK false.

(** [if reference_numbers: ...] *)
Definition add_reference_numbers (a : ShipmentArgs) (shipping_request : value)
  : result value :=
  if truthy (reference_numbers a) then
    items ← py_iter (reference_numbers a);
    let reference_dict := VList (reference_entries 1 items) in
    domestic ← both_US a;
    if (domestic : bool) then
      setitem_path shipping_request (shipment_path ++ ["Package"])%list
        "ReferenceNumber" reference_dict
    else
      shipping_request ← setitem_path shipping_request shipment_path
        "Description" (description a);
      setitem_path shipping_request shipment_path
        "ReferenceNumber" reference_dict
  else OK shipping_request.

(** [if addr.get(key): shipping_request[...][...][field] = addr[key]] *)
Definition add_field (addr : value) (key : string) (path : list string)
  (field : string) (shipping_request : value) : result value :=
  x ← get addr key VNone;
  if truthy x then
    x ← getitem addr key;
    setitem_path shipping_request path field x
  else OK shipping_request.

(** The confirm document handed to the transport: the statements of
    [__init__] up to the first request. *)
Definition confirm_request (ups_conn : UPSConnection) (a : ShipmentArgs)
  : result value :=
  shipping_request ← base_request ups_conn a;
  shipping_request ← add_delivery_confirmation a shipping_request;
  shipping_request ← add_alternate_addr a shipping_request;
  shipping_request ← add_location_id a shipping_request;
  shipping_request ← add_reference_numbers a shipping_request;
  shipping_request ← add_field (from_addr a) "address2"
    (shipment_path ++ ["Shipper"; "Address"])%list "AddressLine2" shipping_request;
  shipping_request ← add_field (to_addr a) "company"
    (shipment_path ++ ["ShipTo"])%list "CompanyName" shipping_request;
  add_field (to_addr a) "address2"
    (shipment_path ++ ["ShipTo"; "Address"])%list "AddressLine2" shipping_request.

Definition accept_request (confirm_result_digest : value) : value :=
  VDict {[
    "ShipmentAcceptRequest" := VDict {[
      "Request" := VDict {[
        "TransactionReference" := VDict {[
          "CustomerContext" := VStr "shipment accept reference";
          "XpciVersion" := VStr "1.0001" ]};
        "RequestAction" := VStr "ShipAccept" ]};
      "ShipmentDigest" := confirm_result_digest ]} ]}.

(** ['ShipmentDigest' not in
     self.confirm_result.dict_response['ShipmentConfirmResponse']] *)
Definition lacks_digest (confirm_result : UPSResult) : result bool :=
  d ← dict_response confirm_result;
  r ← getitem d "ShipmentConfirmResponse";
  b ← contains r "ShipmentDigest";
  OK (negb b).

Definition Shipment_init (ups_conn : UPSConnection) (a : ShipmentArgs)
  : io Shipment :=
  shipping_request ← lift (confirm_request ups_conn a);
  confirm_result ← _transmit_request ups_conn "ship_confirm" shipping_request;
  rejected ← lift (lacks_digest confirm_result);
  if (rejected : bool) then
    error_string ← lift (d ← dict_response confirm_result;
      getitem_path d
        ["ShipmentConfirmResponse"; "Response"; "Error"; "ErrorDescription"]);
    lift (Err (Exception error_string))
  else
    confirm_result_digest ← lift (d ← dict_response confirm_result;
      getitem_path d ["ShipmentConfirmResponse"; "ShipmentDigest"]);
    let ship_accept_request := accept_request confirm_result_digest in
    accept_result ← _transmit_request ups_conn "ship_accept" ship_accept_request;
    mret {| self_file_format := file_format a;
            confirm_result := confirm_result;
            accept_result := accept_result |}.

Definition create_shipment (self : UPSConnection) (a : ShipmentArgs) : io Shipment :=
  Shipment_init self a.

Definition tracking_info (self : UPSConnection) (tracking_number : value)
  : io TrackingInfo :=
  TrackingInfo_init self tracking_number.

(** *** Result accessors *)

Definition package_results_path : list string :=
  ["ShipmentAcceptResponse"; "ShipmentResults"; "PackageResults"].

Definition _convert_pkg_result (self : Shipment) (ups_package_results : value)
  : result value :=
  label ← getitem_path ups_package_results ["LabelImage"; "GraphicImage"];
  format ← getitem_path ups_package_results ["LabelImage"; "LabelImageFormat"];
  label_format ← get format "Code" (self_file_format self);
  tracking_number ← getitem ups_package_results "TrackingNumber";
  OK (VDict {[
    "label" := label;
    "label_format" := label_format;
    "tracking_number" := tracking_number ]}).

(** The generator, run to its end. *)
Definition package_results (self : Shipment) : result (list value) :=
  d ← dict_response (accept_result self);
  pkg_results ← getitem_path d package_results_path;
  pkg_results ← (if isinstance_dict pkg_results then OK [pkg_results]
                 else py_iter pkg_results);
  mapM (_convert_pkg_result self) pkg_results.

Definition tracking_numbers (self : Shipment) : result (list value) :=
  pkgs ← package_results self;
  mapM (fun pkg_res => getitem pkg_res "tracking_number") pkgs.

Definition shipment_tracking_number (self : Shipment) : result value :=
  d ← dict_response (confirm_result self);
  getitem_path d ["ShipmentConfirmResponse"; "ShipmentIdentificationNumber"].

Definition get_label (self : Shipment) : result string :=
  d ← dict_response (accept_result self);
  label_img ← getitem_path d package_results_path;
  image ← getitem_path label_img ["LabelImage"; "GraphicImage"];
  a2b_base64 image.

End WithLibrary.

(** ** A library instance for running the model

    Canned responses in place of the network (the response body is the
    URL that was called, and parsing it gives the canned document of that
    endpoint), a parser of eight-digit dates and a base64 decoder. *)

Definition digit_val (c : ascii) : option Z :=
  let n := Z.of_N (N_of_ascii c) in
  if bool_decide (48 ≤ n ≤ 57)%Z then Some (n - 48)%Z else None.

Fixpoint digits_val (acc : Z) (s : string) : option Z :=
  match s with
  | EmptyString => Some acc
  | String c s' => d ← digit_val c; digits_val (10 * acc + d)%Z s'
  end.

Definition is_leap (y : Z) : bool :=
  bool_decide (y mod 4 = 0)%Z
  && (negb (bool_decide (y mod 100 = 0)%Z) || bool_decide (y mod 400 = 0)%Z).

Definition days_in_month (y m : Z) : Z :=
  if bool_decide (m = 2)%Z then (if is_leap y then 29 else 28)%Z
  else if bool_decide (m ∈ [4; 6; 9; 11]%Z) then 30%Z else 31%Z.

Definition strptime_Ymd (v : value) (fmt : string) : result datetime :=
  match v with
  | VStr s =>
      if bool_decide (fmt = "%Y%m%d" ∧ String.length s = 8) then
        match digits_val 0 (String.substring 0 4 s), digits_val 0 (String.substring 4 2 s),
              digits_val 0 (String.substring 6 2 s) with
        | Some y, Some m, Some d =>
            if bool_decide (1 ≤ y ∧ 1 ≤ m ≤ 12 ∧ 1 ≤ d ≤ days_in_month y m)%Z
            then OK (Datetime y m d) else Err ValueError
        | _, _, _ => Err ValueError
        end
      else Err ValueError
  | _ => Err TypeError
  end.

Definition b64_val (c : ascii) : option Z :=
  let n := Z.of_N (N_of_ascii c) in
  if bool_decide (65 ≤ n ≤ 90)%Z then Some (n - 65)%Z
  else if bool_decide (97 ≤ n ≤ 122)%Z then Some (n - 71)%Z
  else if bool_decide (48 ≤ n ≤ 57)%Z then Some (n + 4)%Z
  else if bool_decide (n = 43)%Z then Some 62%Z
  else if bool_decide (n = 47)%Z then Some 63%Z
  else None.

(** [leftchar] holds [leftbits] pending bits. *)
Fixpoint b64_decode (leftchar leftbits : Z) (s : string) : result string :=
  match s with
  | EmptyString => if bool_decide (leftbits = 0)%Z then OK "" else Err BinasciiError
  | String c s' =>
      match b64_val c with
      | None => if Ascii.eqb c "=" then OK "" else b64_decode leftchar leftbits s'
      | Some v =>
          let leftchar := (leftchar * 64 + v)%Z in
          let leftbits := (leftbits + 6)%Z in
          if bool_decide (8 ≤ leftbits)%Z then
            let leftbits := (leftbits - 8)%Z in
            rest ← b64_decode (leftchar mod 2 ^ leftbits) leftbits s';
            OK (String (ascii_of_N (Z.to_N (leftchar / 2 ^ leftbits))) rest)
          else b64_decode leftchar leftbits s'
      end
  end.

Definition b64_decode_value (v : value) : result string :=
  match v with
  | VStr s => b64_decode 0 0 s
  | _ => Err TypeError
  end.

Definition canned (track confirm accept : value) : Library := {|
  dict2xml := fun _ => "";
  urlopen := fun url _ => OK url;
  xmltodict_parse := fun s =>
    if String.eqb s "https://onlinetools.ups.com/ups.app/xml/Track" then OK track
    else if String.eqb s "https://onlinetools.ups.com/ups.app/xml/ShipConfirm"
    then OK confirm
    else if String.eqb s "https://onlinetools.ups.com/ups.app/xml/ShipAccept"
    then OK accept
    else Err ValueError;
  strptime := strptime_Ymd;
  a2b_base64 := b64_decode_value;
|}.

(** Sample inputs. *)
Definition conn0 : UPSConnection :=
  {| license_number := VStr "LIC"; user_id := VStr "user"; password := VStr "pw";
     shipper_number := VStr "A1B2C3"; debug := false |}.

Definition addr (name country : string) : value :=
  VDict {[ "name" := VStr name; "phone" := VStr "5551234";
           "address1" := VStr "1 Main St"; "city" := VStr "Springfield";
           "state" := VStr "IL"; "country" := VStr country;
           "postal_code" := VStr "62701" ]}.

Definition pkg_no_dims : gmap string value :=
  {[ "desc" := VStr "books"; "weight" := VStr "2.5";
     "fill_dimension" := VBool false ]}.

Definition pkg_dims : value :=
  VDict {[ "desc" := VStr "books"; "weight" := VStr "2.5";
           "length" := VStr "10"; "width" := VStr "8"; "height" := VStr "4" ]}.

Definition confirm_ok (digest : string) : value :=
  VDict {[ "ShipmentConfirmResponse" := VDict {[
    "ShipmentDigest" := VStr digest;
    "ShipmentIdentificationNumber" := VStr "1Z999" ]} ]}.

Definition confirm_rejected (msg : string) : value :=
  VDict {[ "ShipmentConfirmResponse" := VDict {[
    "Response" := VDict {[
      "ResponseStatusCode" := VStr "0";
      "Error" := VDict {[ "ErrorDescription" := VStr msg ]} ]} ]} ]}.

Definition pkg_result (tracking label : string) : gmap string value :=
  {[ "TrackingNumber" := VStr tracking;
     "LabelImage" := VDict {[
       "LabelImageFormat" := VDict {[ "Code" := VStr "GIF" ]};
       "GraphicImage" := VStr label ]} ]}.

Definition accept_with (pkg_results : value) : value :=
  VDict {[ "ShipmentAcceptResponse" := VDict {[
    "ShipmentResults" := VDict {[ "PackageResults" := pkg_results ]} ]} ]}.

Definition activity (code date : string) : value :=
  VDict {[ "Status" := VDict {[ "StatusType" := VDict {[ "Code" := VStr code ]} ]};
           "Date" := VStr date ]}.

Definition track_with (activities : value) : value :=
  VDict {[ "TrackResponse" := VDict {[
    "Shipment" := VDict {[
      "Package" := VDict {[ "Activity" := activities ]} ]} ]} ]}.

Definition sample_args (to_country : string) (package_infos : value)
  (reference_numbers delivery_confirmation : value) : ShipmentArgs :=
  {| from_addr := addr "ACME" "US"; to_addr := addr "Bob" to_country;
     package_infos := package_infos;
     alternate_addr := VNone; file_format := VStr "EPL";
     reference_numbers := reference_numbers; shipping_service := VNone;
     description := VStr "two books";
     delivery_confirmation := delivery_confirmation |}.

Definition args_plain : ShipmentArgs :=
  sample_args "CA" (VDict pkg_no_dims) VNone VNone.
Definition args_two_packages : ShipmentArgs :=
  sample_args "CA" (VList [pkg_dims; VDict pkg_no_dims]) VNone VNone.
Definition args_domestic_refs : ShipmentArgs :=
  sample_args "US" pkg_dims (VList [VStr "PO-77"]) VNone.
Definition args_international_refs : ShipmentArgs :=
  sample_args "CA" pkg_dims
    (VList [VStr "PO-77"; VTuple [VStr "IK"; VStr "INV-1"]]) VNone.
Definition args_signature : ShipmentArgs :=
  sample_args "CA" pkg_dims VNone (VStr "signature_required").
Definition args_unknown_confirmation : ShipmentArgs :=
  sample_args "CA" pkg_dims VNone (VStr "signature").

(** The document of [args_two_packages]. *)
Definition req_two_packages : value :=
  match confirm_request conn0 args_two_packages with
  | OK req => req
  | Err _ => VNone
  end.

(** The document of [args_plain]. *)
Definition req_plain : value :=
  match confirm_request conn0 args_plain with
  | OK req => req
  | Err _ => VNone
  end.

Definition three_activities : list value :=
  [activity "I" "20131101"; activity "D" "20131105"; activity "D" "20131107"].

(** A carrier that accepts: three activities, a digest, one package. *)
Definition lib_accepting : Library :=
  canned (track_with (VList three_activities)) (confirm_ok "DIGEST0")
    (accept_with (VDict (pkg_result "1Z999" "aGVsbG8="))).

(** A carrier that rejects; its tracking answer has a single activity. *)
Definition lib_rejecting : Library :=
  canned (track_with (activity "D" "20131105"))
    (confirm_rejected "Invalid address") VNone.

Definition tracked : TrackingInfo :=
  {| tracking_number := VStr "1Z999";
     result_ := {| response := "https://onlinetools.ups.com/ups.app/xml/Track" |} |}.

Definition shipped : Shipment :=
  {| self_file_format := VStr "EPL";
     confirm_result :=
       {| response := "https://onlinetools.ups.com/ups.app/xml/ShipConfirm" |};
     accept_result :=
       {| response := "https://onlinetools.ups.com/ups.app/xml/ShipAccept" |} |}.

(** A shipment that uses every option the document builder reads. *)
Definition to_full : gmap string value :=
  {[ "name" := VStr "Bob"; "attn" := VStr "Alice"; "company" := VStr "Initech";
     "address1" := VStr "1 Main St"; "address2" := VStr "Suite 5";
     "city" := VStr "Toronto"; "state" := VStr "ON"; "country" := VStr "CA";
     "postal_code" := VStr "M5V"; "location_id" := VStr "LOC9" ]}.

Definition args_full : ShipmentArgs :=
  {| from_addr := addr "ACME" "US"; to_addr := VDict to_full;
     package_infos := VList [pkg_dims; VDict pkg_no_dims];
     alternate_addr := addr "Depot" "CA"; file_format := VStr "ZPL";
     reference_numbers := VList [VStr "PO-77"];
     shipping_service := VStr "2dayair";
     description := VStr "two books"; delivery_confirmation := VNone |}.

Definition req_full : value :=
  match confirm_request conn0 args_full with
  | OK req => req
  | Err _ => VNone
  end.

Definition conn_debug : UPSConnection :=
  {| license_number := VStr "LIC"; user_id := VStr "user"; password := VStr "pw";
     shipper_number := VStr "A1B2C3"; debug := true |}.

(** A carrier whose tracking answer is an error document, and whose
    accept answer lists two packages. *)
Definition lib_two_packages : Library :=
  canned (VDict {[ "TrackResponse" := VDict {[
            "Response" := VDict {[ "ResponseStatusCode" := VStr "0" ]} ]} ]})
    (confirm_ok "DIGEST0")
    (accept_with (VList [VDict (pkg_result "1Z001" "aGVsbG8=");
                         VDict (pkg_result "1Z002" "aGVsbG8=")])).

(** ** Paths of a document

    Two subscript paths part ways when, read from the left, they reach a
    position where they name different keys. *)
Fixpoint diverge (p q : list string) : bool :=
  match p, q with
  | a :: p', b :: q' => if String.eqb a b then diverge p' q' else true
  | _, _ => false
  end.

(** The targets of the assignments [__init__] makes to the document once
    it is written, other than the two that go through [Package]. *)
Definition assigned_paths : list (list string) :=
  [ shipment_path ++ ["AlternateDeliveryAddress"];
    shipment_path ++ ["ShipTo"; "LocationID"];
    shipment_path ++ ["ShipmentIndicationType"];
    shipment_path ++ ["Description"];
    shipment_path ++ ["ReferenceNumber"];
    shipment_path ++ ["Shipper"; "Address"; "AddressLine2"];
    shipment_path ++ ["ShipTo"; "CompanyName"];
    shipment_path ++ ["ShipTo"; "Address"; "AddressLine2"] ].

Definition unassigned (q : list string) : bool :=
  forallb (fun t => diverge t q) assigned_paths.

(** * Properties *)

(** ** Exceptions and subscripts *)

Lemma bind_OK {A B} (m : result A) (f : A -> result B) (b : B) :
  m ≫= f = OK b -> exists a, m = OK a /\ f a = OK b.
Proof. destruct m as [a|e]; simpl; [eauto | discriminate]. Qed.

Lemma bind_Err {A B} (m : result A) (f : A -> result B) (e : exn) :
  m = Err e -> m ≫= f = Err e.
Proof. intros ->. reflexivity. Qed.

(** Split a hypothesis [x ← m; k = OK b] into its successful steps. *)
Ltac inv_bind H :=
  let a := fresh "a" in
  let Ha := fresh "H" a in
  apply bind_OK in H; destruct H as (a & Ha & H).

Ltac inv_binds H :=
  repeat (let a := fresh "a" in
          let Ha := fresh "H" a in
          apply bind_OK in H; destruct H as (a & Ha & H)).

Lemma getitem_OK (v : value) (k : string) (x : value) :
  getitem v k = OK x <-> exists d, v = VDict d /\ d !! k = Some x.
Proof.
  split.
  - destruct v; simpl; try discriminate.
    unfold dict_getitem; simpl. destruct (d !! k) eqn:E; [|discriminate].
    intros [= <-]. eauto.
  - intros (d & -> & E). simpl. unfold dict_getitem; simpl. by rewrite E.
Qed.

Lemma getitem_dict (d : gmap string value) (k : string) :
  getitem (VDict d) k =
  match d !! k with Some x => OK x | None => Err (KeyError (VStr k)) end.
Proof. reflexivity. Qed.

Lemma get_dict (d : gmap string value) (k : string) (dflt : value) :
  get (VDict d) k dflt = OK (default dflt (d !! k)).
Proof. reflexivity. Qed.

Lemma setitem_OK (v : value) (k : string) (x v' : value) :
  setitem v k x = OK v' <-> exists d, v = VDict d /\ v' = VDict (<[k := x]> d).
Proof.
  split.
  - destruct v; simpl; try discriminate. intros [= <-]. eauto.
  - intros (d & -> & ->). reflexivity.
Qed.

(** An assignment changes no key of the outer object other than the
    first subscript of its target. *)
Lemma setitem_path_other (v : value) (path : list string) (k : string)
  (x v' : value) (q : string) :
  setitem_path v path k x = OK v' ->
  hd k path <> q ->
  getitem v' q = getitem v q.
Proof.
  destruct path as [|p ps]; simpl; intros H Hq.
  - apply setitem_OK in H as (d & -> & ->).
    rewrite !getitem_dict. by rewrite lookup_insert_ne.
  - inv_binds H. apply setitem_OK in H as (d & -> & ->).
    rewrite !getitem_dict. by rewrite lookup_insert_ne.
Qed.

(** Below the first subscript the assignment is the assignment of the
    rest of the target. *)
Lemma setitem_path_under (v : value) (p : string) (ps : list string)
  (k : string) (x v' : value) :
  setitem_path v (p :: ps) k x = OK v' ->
  exists sub sub', getitem v p = OK sub /\
                   setitem_path sub ps k x = OK sub' /\
                   getitem v' p = OK sub'.
Proof.
  simpl. intros H. inv_binds H. apply setitem_OK in H as (d & -> & ->).
  eexists _, _. repeat split; eauto.
  rewrite getitem_dict. by rewrite lookup_insert_eq.
Qed.

(** Assigning through a subscript that holds no dictionary raises
    [TypeError]: a list takes no string subscript. *)
Lemma setitem_path_not_dict (v : value) (path : list string) (k : string)
  (x : value) :
  isinstance_dict v = false -> setitem_path v path k x = Err TypeError.
Proof. destruct v, path; simpl; intros; done. Qed.

Lemma setitem_path_through (v : value) (path rest : list string)
  (k : string) (x sub : value) :
  getitem_path v path = OK sub ->
  isinstance_dict sub = false ->
  setitem_path v (path ++ rest) k x = Err TypeError.
Proof.
  revert v. induction path as [|p ps IH]; simpl; intros v H Hsub.
  - injection H as ->. by apply setitem_path_not_dict.
  - inv_bind H. rewrite Ha. simpl. by rewrite (IH _ H Hsub).
Qed.

Lemma mapM_length {A B} (f : A -> result B) (l : list A) (l' : list B) :
  mapM f l = OK l' -> length l' = length l.
Proof.
  revert l'. induction l as [|x xs IH]; simpl; intros l' H.
  - by injection H as <-.
  - inv_binds H. injection H as <-. simpl. f_equal. eauto.
Qed.

Lemma mapM_lookup {A B} (f : A -> result B) (l : list A) (l' : list B)
  (i : nat) (x : A) :
  mapM f l = OK l' -> l !! i = Some x ->
  exists y, l' !! i = Some y /\ f x = OK y.
Proof.
  revert l' i. induction l as [|x0 xs IH]; simpl; intros l' i H Hi; [done|].
  inv_binds H. injection H as <-.
  destruct i as [|i]; simpl in *.
  - injection Hi as ->. eauto.
  - eauto.
Qed.

Lemma filterM_no_match {A} (p : A -> result bool) (l : list A) :
  Forall (fun x => p x = OK false) l -> filterM p l = OK [].
Proof.
  induction 1 as [|x xs Hx _ IH]; simpl; [done|]. by rewrite Hx, IH.
Qed.

Lemma filterM_first {A} (p : A -> result bool) (pre post : list A) (x : A) :
  Forall (fun y => p y = OK false) pre ->
  p x = OK true ->
  Forall (fun y => is_ok (p y) = true) post ->
  exists rest, filterM p (pre ++ x :: post) = OK (x :: rest).
Proof.
  intros Hpre Hx Hpost.
  assert (exists rest, filterM p post = OK rest) as [rest Hrest].
  { induction Hpost as [|y ys Hy _ [r IH]]; simpl; [eauto|].
    destruct (p y) as [b|]; [|done]. simpl. rewrite IH. simpl. eauto. }
  exists rest. induction Hpre as [|y ys Hy _ IH]; simpl.
  - by rewrite Hx, Hrest.
  - by rewrite Hy, IH.
Qed.

Lemma filterM_elem {A} (p : A -> result bool) (l l' : list A) (x : A) :
  filterM p l = OK l' -> x ∈ l' -> x ∈ l /\ p x = OK true.
Proof.
  revert l'. induction l as [|y ys IH]; simpl; intros l' H Hx.
  - injection H as <-. by apply elem_of_nil in Hx.
  - inv_binds H. injection H as <-. destruct a.
    + apply elem_of_cons in Hx as [->|Hx].
      * split; [apply elem_of_cons; by left | done].
      * destruct (IH _ Ha0 Hx). split; [apply elem_of_cons; by right | done].
    + destruct (IH _ Ha0 Hx). split; [apply elem_of_cons; by right | done].
Qed.

Section Properties.
Context `{Lib : Library}.

(** ** Tracking *)

(** C7. When the activity path of the parsed tracking response holds a
    single record (anything that is not a list), [shipment_activities]
    returns the one-element list of that record; when it holds a list,
    that list is returned as it is. *)
Theorem shipment_activities_normalized (self : TrackingInfo) (d v : value) :
  dict_response (result_ self) = OK d ->
  getitem_path d ["TrackResponse"; "Shipment"; "Package"; "Activity"] = OK v ->
  ((forall l, v <> VList l) -> shipment_activities self = OK (VList [v])) /\
  (forall l, v = VList l -> shipment_activities self = OK (VList l)).
Proof.
  intros Hd Hv. unfold shipment_activities. rewrite Hd. simpl.
  simpl in Hv. rewrite Hv. simpl. split.
  - intros Hne. destruct v; try reflexivity. by destruct (Hne l).
  - by intros l ->.
Qed.

Lemma shipment_activities_is_list (self : TrackingInfo) (v : value) :
  shipment_activities self = OK v -> exists l, v = VList l.
Proof.
  unfold shipment_activities. intros H. inv_binds H.
  destruct (type_is_list a0) eqn:E; simpl in H; injection H as <-; [|eauto].
  destruct a0; try discriminate. eauto.
Qed.

(** C8. Over a list of activities that all carry a status code:
    when none has code "D", [delivered] returns [None]; when [x] is the
    first one in list order with code "D", [delivered] is the [Date]
    field of [x] parsed with the format [%Y%m%d]; and a date is returned
    only when some activity has code "D", namely the parsed [Date] of
    the first such activity. *)
Theorem delivered_first_D (self : TrackingInfo) (acts : list value) :
  shipment_activities self = OK (VList acts) ->
  Forall (fun x => is_ok (status_code_is "D" x) = true) acts ->
  (Forall (fun x => status_code_is "D" x = OK false) acts ->
     delivered self = OK None) /\
  (forall pre x post,
     acts = pre ++ x :: post ->
     Forall (fun y => status_code_is "D" y = OK false) pre ->
     status_code_is "D" x = OK true ->
     delivered self = delivery_date x) /\
  (forall dt,
     delivered self = OK (Some dt) ->
     exists pre x post date,
       acts = pre ++ x :: post /\
       Forall (fun y => status_code_is "D" y = OK false) pre /\
       status_code_is "D" x = OK true /\
       getitem x "Date" = OK date /\
       strptime date "%Y%m%d" = OK dt).
Proof.
  intros Hacts Hcodes.
  assert (Hfirst : forall pre x post,
     acts = pre ++ x :: post ->
     Forall (fun y => status_code_is "D" y = OK false) pre ->
     status_code_is "D" x = OK true ->
     delivered self = delivery_date x).
  { intros pre x post -> Hpre Hx.
    apply Forall_app in Hcodes as [_ Hcodes].
    apply Forall_cons in Hcodes as [_ Hpost].
    destruct (filterM_first _ pre post x Hpre Hx Hpost) as [rest Hrest].
    unfold delivered. rewrite Hacts. simpl. rewrite Hrest. reflexivity. }
  split; [|split; [exact Hfirst|]].
  - intros Hnone. unfold delivered. rewrite Hacts. simpl.
    by rewrite (filterM_no_match _ _ Hnone).
  - intros dt Hdt.
    assert (Hsplit : Forall (fun x => status_code_is "D" x = OK false) acts \/
      exists pre x post, acts = pre ++ x :: post /\
        Forall (fun y => status_code_is "D" y = OK false) pre /\
        status_code_is "D" x = OK true).
    { clear Hacts Hdt Hfirst.
      induction Hcodes as [|y ys Hy _ IH]; [left; constructor|].
      destruct (status_code_is "D" y) as [[|]|] eqn:E; [| |done].
      - right. exists [], y, ys. repeat split; [constructor | done].
      - destruct IH as [IH|(pre & x & post & -> & Hpre & Hx)].
        + left. by constructor.
        + right. exists (y :: pre), x, post. repeat split; [|done].
          by constructor. }
    destruct Hsplit as [Hnone|(pre & x & post & Heq & Hpre & Hx)].
    + unfold delivered in Hdt. rewrite Hacts in Hdt. simpl in Hdt.
      rewrite (filterM_no_match _ _ Hnone) in Hdt. discriminate.
    + rewrite (Hfirst _ _ _ Heq Hpre Hx) in Hdt. unfold delivery_date in Hdt.
      inv_binds Hdt. injection Hdt as ->.
      exists pre, x, post, a. repeat split; done.
Qed.

(** ** Result accessors *)

(** C9. When the package-results path of the parsed accept response
    holds a single package result [p] (a dictionary) that converts to
    [pkg], [tracking_numbers] is the one-element list of the tracking
    number of [pkg], which is the [TrackingNumber] of [p], and
    [get_label] is the base64 decoding of the [GraphicImage] of [p]. *)
Theorem single_package_result (self : Shipment) (d : value)
  (p : gmap string value) (pkg : value) :
  dict_response (accept_result self) = OK d ->
  getitem_path d package_results_path = OK (VDict p) ->
  _convert_pkg_result self (VDict p) = OK pkg ->
  exists tn image,
    getitem pkg "tracking_number" = OK tn /\
    p !! "TrackingNumber" = Some tn /\
    tracking_numbers self = OK [tn] /\
    getitem_path (VDict p) ["LabelImage"; "GraphicImage"] = OK image /\
    getitem pkg "label" = OK image /\
    get_label self = a2b_base64 image.
Proof.
  intros Hd Hp Hpkg.
  pose proof Hpkg as Hconv. unfold _convert_pkg_result in Hconv.
  inv_binds Hconv. injection Hconv as <-.
  apply getitem_OK in Ha2 as (p' & [= <-] & Htn).
  exists a2, a. repeat split; try done.
  - unfold tracking_numbers, package_results. rewrite Hd. simpl.
    unfold package_results_path in Hp. simpl in Hp. rewrite Hp. simpl.
    rewrite Hpkg. reflexivity.
  - unfold get_label. rewrite Hd. simpl.
    unfold package_results_path in Hp. simpl in Hp. rewrite Hp. simpl.
    simpl in Ha. rewrite Ha. reflexivity.
Qed.

(** ** The confirm document *)

(** An assignment below the shipment block changes no entry of the block
    other than the one its target starts with. *)
Lemma setitem_shipment_other (req : value) (rest : list string) (k : string)
  (x req' : value) (q : string) :
  setitem_path req (shipment_path ++ rest) k x = OK req' ->
  hd k rest <> q ->
  shipment_entry q req' = shipment_entry q req.
Proof.
  intros H Hq.
  change (shipment_path ++ rest)
    with ("ShipmentConfirmRequest" :: "Shipment" :: rest) in H.
  apply setitem_path_under in H as (s1 & s1' & Hs1 & H & Hs1').
  apply setitem_path_under in H as (s2 & s2' & Hs2 & H & Hs2').
  unfold shipment_entry, shipment_path. simpl.
  rewrite Hs1, Hs1'. simpl. rewrite Hs2, Hs2'. simpl.
  by rewrite (setitem_path_other _ _ _ _ _ _ H Hq).
Qed.

(** An assignment to an entry of the shipment block itself. *)
Lemma setitem_shipment_entry (req : value) (k : string) (x req' : value) :
  setitem_path req shipment_path k x = OK req' ->
  shipment_entry k req' = OK x.
Proof.
  intros H. unfold shipment_path in H.
  apply setitem_path_under in H as (s1 & s1' & Hs1 & H & Hs1').
  apply setitem_path_under in H as (s2 & s2' & Hs2 & H & Hs2').
  simpl in H. apply setitem_OK in H as (d & -> & ->).
  unfold shipment_entry, shipment_path. simpl.
  rewrite Hs1'. simpl. rewrite Hs2'. simpl.
  unfold dict_getitem. simpl. by rewrite lookup_insert_eq.
Qed.

(** The package entry is a list, so an assignment that goes through it
    with a string subscript raises [TypeError]. *)
Lemma setitem_through_packages (req : value) (pkgs : list value)
  (rest : list string) (k : string) (x : value) :
  shipment_entry "Package" req = OK (VList pkgs) ->
  setitem_path req (shipment_path ++ "Package" :: rest) k x = Err TypeError.
Proof.
  intros H.
  change (shipment_path ++ "Package" :: rest)
    with ((shipment_path ++ ["Package"]) ++ rest).
  by apply (setitem_path_through _ _ _ _ _ (VList pkgs)).
Qed.

(** The document as first written holds the list of package blocks, one
    per package, in order. *)
Lemma base_request_packages (conn : UPSConnection) (a : ShipmentArgs)
  (req : value) :
  base_request conn a = OK req ->
  exists infos pkgs,
    package_info_list (package_infos a) = OK infos /\
    mapM package_vals infos = OK pkgs /\
    shipment_entry "Package" req = OK (VList pkgs).
Proof.
  unfold base_request. intros H.
  apply bind_OK in H as (infos & Hinfos & H).
  apply bind_OK in H as (pkgs & Hpkgs & H).
  inv_binds H. injection H as <-.
  exists infos, pkgs. repeat split; done.
Qed.

Lemma add_delivery_confirmation_packages (a : ShipmentArgs) (req req' : value)
  (pkgs : list value) :
  shipment_entry "Package" req = OK (VList pkgs) ->
  add_delivery_confirmation a req = OK req' ->
  truthy (delivery_confirmation a) = false /\ req' = req.
Proof.
  intros Hp. unfold add_delivery_confirmation.
  destruct (truthy (delivery_confirmation a)).
  - intros H. inv_bind H.
    by rewrite (setitem_through_packages _ _ _ _ _ Hp) in H.
  - by intros [= ->].
Qed.

Lemma add_alternate_addr_other (a : ShipmentArgs) (req req' : value) (q : string) :
  add_alternate_addr a req = OK req' ->
  q <> "AlternateDeliveryAddress" ->
  shipment_entry q req' = shipment_entry q req.
Proof.
  unfold add_alternate_addr. destruct (truthy (alternate_addr a)).
  - intros H Hq. do 3 inv_bind H.
    apply (setitem_shipment_other _ [] _ _ _ q) in H; [done|].
    simpl. congruence.
  - by intros [= ->].
Qed.

Lemma add_location_id_other (a : ShipmentArgs) (req req' : value) (q : string) :
  add_location_id a req = OK req' ->
  q <> "ShipTo" -> q <> "ShipmentIndicationType" ->
  shipment_entry q req' = shipment_entry q req.
Proof.
  unfold add_location_id. intros H Hq1 Hq2. inv_bind H.
  destruct (truthy a0).
  - apply bind_OK in H as (loc & _ & H).
    apply bind_OK in H as (req1 & Hreq1 & H).
    apply (setitem_shipment_other _ [] _ _ _ q) in H; [|simpl; congruence].
    apply (setitem_shipment_other _ ["ShipTo"] _ _ _ q) in Hreq1;
      [|simpl; congruence].
    congruence.
  - by injection H as ->.
Qed.

Lemma add_field_other (addr : value) (key : string) (rest : list string)
  (field : string) (req req' : value) (q : string) :
  add_field addr key (shipment_path ++ rest) field req = OK req' ->
  hd field rest <> q ->
  shipment_entry q req' = shipment_entry q req.
Proof.
  unfold add_field. intros H Hq. inv_bind H. destruct (truthy a).
  - inv_bind H. by apply (setitem_shipment_other _ _ _ _ _ q) in H.
  - by injection H as ->.
Qed.

Lemma add_reference_numbers_domestic (a : ShipmentArgs) (req : value)
  (pkgs : list value) :
  truthy (reference_numbers a) = true ->
  both_US a = OK true ->
  shipment_entry "Package" req = OK (VList pkgs) ->
  add_reference_numbers a req = Err TypeError.
Proof.
  intros Hrefs HUS Hp. unfold add_reference_numbers. rewrite Hrefs.
  destruct (py_iter (reference_numbers a)) as [items|e] eqn:E.
  - cbn [mbind result_bind]. rewrite HUS. cbn [mbind result_bind].
    apply (setitem_through_packages _ _ [] _ _ Hp).
  - destruct (reference_numbers a); simpl in E; try discriminate;
      by injection E as <-.
Qed.

Lemma add_reference_numbers_international (a : ShipmentArgs) (req req' : value)
  (pkgs : list value) :
  truthy (reference_numbers a) = true ->
  shipment_entry "Package" req = OK (VList pkgs) ->
  add_reference_numbers a req = OK req' ->
  exists items,
    py_iter (reference_numbers a) = OK items /\
    both_US a = OK false /\
    shipment_entry "Description" req' = OK (description a) /\
    shipment_entry "ReferenceNumber" req' = OK (VList (reference_entries 1 items)) /\
    forall q, q <> "Description" -> q <> "ReferenceNumber" ->
              shipment_entry q req' = shipment_entry q req.
Proof.
  intros Hrefs Hp. unfold add_reference_numbers. rewrite Hrefs. intros H.
  apply bind_OK in H as (items & Hitems & H).
  apply bind_OK in H as (domestic & HUS & H).
  destruct domestic.
  - by rewrite (setitem_through_packages _ _ [] _ _ Hp) in H.
  - apply bind_OK in H as (req1 & Hreq1 & H).
    exists items. repeat split; try done.
    + rewrite (setitem_shipment_other _ [] _ _ _ "Description" H);
        [|simpl; congruence].
      by apply setitem_shipment_entry in Hreq1.
    + by apply setitem_shipment_entry in H.
    + intros q Hq1 Hq2.
      rewrite (setitem_shipment_other _ [] _ _ _ q H); [|simpl; congruence].
      apply (setitem_shipment_other _ [] _ _ _ q Hreq1). simpl. congruence.
Qed.

Lemma add_reference_numbers_none (a : ShipmentArgs) (req : value) :
  truthy (reference_numbers a) = false -> add_reference_numbers a req = OK req.
Proof. intros H. unfold add_reference_numbers. by rewrite H. Qed.

(** The steps of a document that was built. *)
Lemma confirm_request_inv (conn : UPSConnection) (a : ShipmentArgs) (req : value) :
  confirm_request conn a = OK req ->
  exists r0 r2 r3 r4 r5 r6,
    base_request conn a = OK r0 /\
    add_delivery_confirmation a r0 = OK r0 /\
    truthy (delivery_confirmation a) = false /\
    add_alternate_addr a r0 = OK r2 /\
    add_location_id a r2 = OK r3 /\
    add_reference_numbers a r3 = OK r4 /\
    add_field (from_addr a) "address2"
      (shipment_path ++ ["Shipper"; "Address"]) "AddressLine2" r4 = OK r5 /\
    add_field (to_addr a) "company"
      (shipment_path ++ ["ShipTo"]) "CompanyName" r5 = OK r6 /\
    add_field (to_addr a) "address2"
      (shipment_path ++ ["ShipTo"; "Address"]) "AddressLine2" r6 = OK req.
Proof.
  unfold confirm_request. intros H.
  apply bind_OK in H as (r0 & H0 & H).
  apply bind_OK in H as (r1 & H1 & H).
  apply bind_OK in H as (r2 & H2 & H).
  apply bind_OK in H as (r3 & H3 & H).
  apply bind_OK in H as (r4 & H4 & H).
  apply bind_OK in H as (r5 & H5 & H).
  apply bind_OK in H as (r6 & H6 & H).
  destruct (base_request_packages _ _ _ H0) as (infos & pkgs & _ & _ & Hp).
  destruct (add_delivery_confirmation_packages _ _ _ _ Hp H1) as [Hdc ->].
  exists r0, r2, r3, r4, r5, r6. repeat split; done.
Qed.

(** The list of package blocks is the one first written: no later step
    of a document that was built changes it. *)
Lemma confirm_request_packages (conn : UPSConnection) (a : ShipmentArgs)
  (req : value) :
  confirm_request conn a = OK req ->
  exists infos pkgs,
    package_info_list (package_infos a) = OK infos /\
    mapM package_vals infos = OK pkgs /\
    shipment_entry "Package" req = OK (VList pkgs).
Proof.
  intros H.
  apply confirm_request_inv in H
    as (r0 & r2 & r3 & r4 & r5 & r6 & H0 & _ & _ & H2 & H3 & H4 & H5 & H6 & H7).
  destruct (base_request_packages _ _ _ H0) as (infos & pkgs & Hi & Hm & Hp).
  exists infos, pkgs. repeat split; try done.
  rewrite (add_field_other _ _ _ _ _ _ "Package" H7); [|simpl; congruence].
  rewrite (add_field_other _ _ _ _ _ _ "Package" H6); [|simpl; congruence].
  rewrite (add_field_other _ _ _ _ _ _ "Package" H5); [|simpl; congruence].
  assert (Hp3 : shipment_entry "Package" r3 = OK (VList pkgs)).
  { rewrite (add_location_id_other _ _ _ "Package" H3); [|congruence..].
    rewrite (add_alternate_addr_other _ _ _ "Package" H2); [done|congruence]. }
  destruct (truthy (reference_numbers a)) eqn:Hrefs.
  - destruct (add_reference_numbers_international _ _ _ _ Hrefs Hp3 H4)
      as (_ & _ & _ & _ & _ & Hother).
    rewrite Hother; [done|congruence..].
  - rewrite (add_reference_numbers_none _ _ Hrefs) in H4. by injection H4 as <-.
Qed.

(** Nothing is sent when the document cannot be built. *)
Lemma Shipment_init_not_built (conn : UPSConnection) (a : ShipmentArgs)
  (e : exn) (log : list sent) :
  confirm_request conn a = Err e -> Shipment_init conn a log = (Err e, log).
Proof. intros H. unfold Shipment_init, mbind, io_bind, lift. by rewrite H. Qed.

(** *** Package blocks *)

(** The block of a package without the dimensions: what the loop body
    writes before it looks at the flag. *)
Lemma package_vals_flag_false (m : gmap string value) (v : value) :
  truthy (default (VBool true) (m !! "fill_dimension")) = false ->
  package_vals (VDict m) = OK v ->
  exists weight,
    m !! "weight" = Some weight /\
    v = VDict {[
      "Description" := default VNone (m !! "desc");
      "PackagingType" := VDict {[ "Code" := default (VStr "02") (m !! "type") ]};
      "PackageWeight" := VDict {[
        "UnitOfMeasurement" :=
          VDict {[ "Code" := default (VStr "LBS") (m !! "weight_unit") ]};
        "Weight" := weight ]};
      "PackageServiceOptions" := VDict ∅ ]}.
Proof.
  intros Hflag. unfold package_vals. rewrite !get_dict, !getitem_dict.
  destruct (m !! "weight") as [weight|]; cbn [mbind result_bind]; [|done].
  rewrite Hflag. intros [= <-]. eauto.
Qed.

Lemma package_vals_any_flag (m : gmap string value) (flag v : value) :
  package_vals (VDict (<["fill_dimension" := flag]> m)) = OK v ->
  exists weight d,
    m !! "weight" = Some weight /\
    v = VDict d /\
    delete "Dimensions" d = {[
      "Description" := default VNone (m !! "desc");
      "PackagingType" := VDict {[ "Code" := default (VStr "02") (m !! "type") ]};
      "PackageWeight" := VDict {[
        "UnitOfMeasurement" :=
          VDict {[ "Code" := default (VStr "LBS") (m !! "weight_unit") ]};
        "Weight" := weight ]};
      "PackageServiceOptions" := VDict ∅ ]}.
Proof.
  unfold package_vals. rewrite !get_dict, !getitem_dict.
  rewrite lookup_insert_eq. rewrite !lookup_insert_ne by done.
  cbn [mbind result_bind default from_option id].
  destruct (m !! "weight") as [weight|]; cbn [mbind result_bind]; [|done].
  destruct (truthy flag).
  - destruct (m !! "length"); cbn [mbind result_bind]; [|done].
    destruct (m !! "width"); cbn [mbind result_bind]; [|done].
    destruct (m !! "height"); cbn [mbind result_bind]; [|done].
    intros [= <-]. eexists _, _. split; [done|]. split; [done|].
    by rewrite delete_insert_id.
  - intros [= <-]. eexists _, _. split; [done|]. split; [done|].
    by rewrite delete_id.
Qed.

(** C6. In a confirm document that was built, the block of a package
    whose [fill_dimension] entry is false holds no [Dimensions] entry;
    and whatever the flag is set to, a block that builds is, apart from
    [Dimensions], this same block. *)
Theorem no_dimensions_block (conn : UPSConnection) (a : ShipmentArgs)
  (req : value) (infos : list value) (i : nat) (m : gmap string value) :
  confirm_request conn a = OK req ->
  package_info_list (package_infos a) = OK infos ->
  infos !! i = Some (VDict m) ->
  truthy (default (VBool true) (m !! "fill_dimension")) = false ->
  exists pkgs d,
    shipment_entry "Package" req = OK (VList pkgs) /\
    pkgs !! i = Some (VDict d) /\
    d !! "Dimensions" = None /\
    forall flag d',
      package_vals (VDict (<["fill_dimension" := flag]> m)) = OK (VDict d') ->
      delete "Dimensions" d' = d.
Proof.
  intros Hreq Hinfos Hi Hflag.
  destruct (confirm_request_packages _ _ _ Hreq)
    as (infos' & pkgs & Hinfos' & Hpkgs & Hp).
  rewrite Hinfos in Hinfos'. injection Hinfos' as <-.
  destruct (mapM_lookup _ _ _ _ _ Hpkgs Hi) as (v & Hv & Hvals).
  destruct (package_vals_flag_false _ _ Hflag Hvals) as (weight & Hw & ->).
  eexists pkgs, _. repeat split; [done..|].
  intros flag d' Hd'.
  destruct (package_vals_any_flag _ _ _ Hd') as (w' & d'' & Hw' & [= <-] & Hdel).
  rewrite Hw in Hw'. injection Hw' as <-. exact Hdel.
Qed.

(** C10. A [package_infos] that is no list, set or tuple is taken as the
    one package of the shipment: the document, and the whole
    construction, are those of the one-element list that holds it. *)
Theorem single_package_info (conn : UPSConnection) (a : ShipmentArgs) :
  isinstance_list_set_tuple (package_infos a) = false ->
  package_info_list (package_infos a) = OK [package_infos a] /\
  confirm_request conn a =
    confirm_request conn (with_package_infos a (VList [package_infos a])) /\
  forall log,
    Shipment_init conn a log =
    Shipment_init conn (with_package_infos a (VList [package_infos a])) log.
Proof.
  intros H.
  assert (Hlist : package_info_list (package_infos a) = OK [package_infos a]).
  { unfold package_info_list. by rewrite H. }
  assert (Hreq : confirm_request conn a =
    confirm_request conn (with_package_infos a (VList [package_infos a]))).
  { unfold confirm_request, base_request. rewrite Hlist. reflexivity. }
  split; [done|]. split; [done|].
  intros log. unfold Shipment_init. by rewrite <- Hreq.
Qed.

(** *** Delivery confirmation and reference numbers *)

(** C2 (the code raises instead).  When [delivery_confirmation] is
    supplied and is a key of [DCIS_TYPES], the construction raises and
    sends nothing; with a document that was written without error the
    exception is the [TypeError] of the assignment through the list of
    package blocks. *)
Theorem delivery_confirmation_raises (conn : UPSConnection) (a : ShipmentArgs)
  (code : value) :
  truthy (delivery_confirmation a) = true ->
  dict_getitem DCIS_TYPES (delivery_confirmation a) = OK code ->
  exists e,
    confirm_request conn a = Err e /\
    (forall log, Shipment_init conn a log = (Err e, log)) /\
    (is_ok (base_request conn a) = true -> e = TypeError).
Proof.
  intros Hdc Hcode.
  assert (exists e, confirm_request conn a = Err e /\
            (is_ok (base_request conn a) = true -> e = TypeError))
    as (e & He & Hty).
  { unfold confirm_request.
    destruct (base_request conn a) as [r0|e] eqn:H0.
    - destruct (base_request_packages _ _ _ H0) as (? & pkgs & _ & _ & Hp).
      exists TypeError. split; [|done]. cbn [mbind result_bind].
      unfold add_delivery_confirmation. rewrite Hdc, Hcode.
      cbn [mbind result_bind].
      by rewrite (setitem_through_packages _ _ _ _ _ Hp).
    - exists e. split; [done|]. discriminate. }
  exists e. repeat split; [done| |done].
  intros log. by apply Shipment_init_not_built.
Qed.

(** C5. When [delivery_confirmation] is supplied and is no key of
    [DCIS_TYPES], the construction raises and sends nothing; with a
    document that was written without error and a key that can be
    hashed, the exception is the [KeyError] of that key. *)
Theorem unknown_delivery_confirmation (conn : UPSConnection) (a : ShipmentArgs) :
  truthy (delivery_confirmation a) = true ->
  (forall s, delivery_confirmation a = VStr s -> DCIS_TYPES !! s = None) ->
  exists e,
    confirm_request conn a = Err e /\
    (forall log, Shipment_init conn a log = (Err e, log)) /\
    (is_ok (base_request conn a) = true ->
     hashable (delivery_confirmation a) = true ->
     e = KeyError (delivery_confirmation a)).
Proof.
  intros Hdc Hkey.
  assert (Hlookup : exists e0,
    dict_getitem DCIS_TYPES (delivery_confirmation a) = Err e0 /\
    (hashable (delivery_confirmation a) = true ->
     e0 = KeyError (delivery_confirmation a))).
  { unfold dict_getitem.
    destruct (hashable (delivery_confirmation a));
      [|exists TypeError; by split].
    destruct (delivery_confirmation a) as [| | |s| | | |] eqn:E;
      try (eexists; split; [reflexivity|done]).
    rewrite (Hkey s eq_refl). eexists; split; [reflexivity|done]. }
  destruct Hlookup as (e0 & He0 & Hk).
  assert (exists e, confirm_request conn a = Err e /\
            (is_ok (base_request conn a) = true -> e = e0))
    as (e & He & Hbase).
  { unfold confirm_request.
    destruct (base_request conn a) as [r0|e] eqn:H0.
    - exists e0. split; [|done]. cbn [mbind result_bind].
      unfold add_delivery_confirmation. by rewrite Hdc, He0.
    - exists e. split; [done|]. discriminate. }
  exists e. repeat split; [done| |].
  - intros log. by apply Shipment_init_not_built.
  - intros Hok Hh. rewrite (Hbase Hok). by apply Hk.
Qed.

(** C1 (the code raises on the domestic branch).  With a non-empty
    [reference_numbers] and both countries equal to "US", the
    construction raises and sends nothing; with a document that was
    written up to that step without error the exception is the
    [TypeError] of the assignment into the list of package blocks. *)
Theorem domestic_reference_numbers_raise (conn : UPSConnection)
  (a : ShipmentArgs) :
  truthy (reference_numbers a) = true ->
  both_US a = OK true ->
  exists e,
    confirm_request conn a = Err e /\
    (forall log, Shipment_init conn a log = (Err e, log)) /\
    (forall r0 r2 r3,
       base_request conn a = OK r0 ->
       add_delivery_confirmation a r0 = OK r0 ->
       add_alternate_addr a r0 = OK r2 ->
       add_location_id a r2 = OK r3 ->
       e = TypeError).
Proof.
  intros Hrefs HUS.
  destruct (confirm_request conn a) as [req|e] eqn:Hreq.
  - exfalso.
    apply confirm_request_inv in Hreq
      as (r0 & r2 & r3 & r4 & r5 & r6 & H0 & _ & _ & H2 & H3 & H4 & _).
    destruct (base_request_packages _ _ _ H0) as (? & pkgs & _ & _ & Hp).
    assert (Hp3 : shipment_entry "Package" r3 = OK (VList pkgs)).
    { rewrite (add_location_id_other _ _ _ "Package" H3); [|congruence..].
      rewrite (add_alternate_addr_other _ _ _ "Package" H2); [done|congruence]. }
    by rewrite (add_reference_numbers_domestic _ _ _ Hrefs HUS Hp3) in H4.
  - exists e. repeat split; [|].
    + intros log. by apply Shipment_init_not_built.
    + intros r0 r2 r3 H0 H1 H2 H3.
      destruct (base_request_packages _ _ _ H0) as (? & pkgs & _ & _ & Hp).
      assert (Hp3 : shipment_entry "Package" r3 = OK (VList pkgs)).
      { rewrite (add_location_id_other _ _ _ "Package" H3); [|congruence..].
        rewrite (add_alternate_addr_other _ _ _ "Package" H2); [done|congruence]. }
      unfold confirm_request in Hreq. rewrite H0 in Hreq.
      cbn [mbind result_bind] in Hreq. rewrite H1 in Hreq.
      cbn [mbind result_bind] in Hreq. rewrite H2 in Hreq.
      cbn [mbind result_bind] in Hreq. rewrite H3 in Hreq.
      cbn [mbind result_bind] in Hreq.
      rewrite (add_reference_numbers_domestic _ _ _ Hrefs HUS Hp3) in Hreq.
      by injection Hreq as <-.
Qed.

(** The other branch of C1: in a document that was built with a
    non-empty [reference_numbers], the countries are not both "US" and
    the shipment block holds the description and the list of reference
    entries. *)
Lemma international_reference_numbers (conn : UPSConnection) (a : ShipmentArgs)
  (req : value) :
  truthy (reference_numbers a) = true ->
  confirm_request conn a = OK req ->
  exists items,
    py_iter (reference_numbers a) = OK items /\
    both_US a = OK false /\
    shipment_entry "Description" req = OK (description a) /\
    shipment_entry "ReferenceNumber" req = OK (VList (reference_entries 1 items)).
Proof.
  intros Hrefs Hreq.
  apply confirm_request_inv in Hreq
    as (r0 & r2 & r3 & r4 & r5 & r6 & H0 & _ & _ & H2 & H3 & H4 & H5 & H6 & H7).
  destruct (base_request_packages _ _ _ H0) as (? & pkgs & _ & _ & Hp).
  assert (Hp3 : shipment_entry "Package" r3 = OK (VList pkgs)).
  { rewrite (add_location_id_other _ _ _ "Package" H3); [|congruence..].
    rewrite (add_alternate_addr_other _ _ _ "Package" H2); [done|congruence]. }
  destruct (add_reference_numbers_international _ _ _ _ Hrefs Hp3 H4)
    as (items & Hitems & HUS & Hdesc & Href & _).
  exists items. repeat split; try done.
  - rewrite (add_field_other _ _ _ _ _ _ "Description" H7); [|simpl; congruence].
    rewrite (add_field_other _ _ _ _ _ _ "Description" H6); [|simpl; congruence].
    by rewrite (add_field_other _ _ _ _ _ _ "Description" H5);
      [|simpl; congruence].
  - rewrite (add_field_other _ _ _ _ _ _ "ReferenceNumber" H7);
      [|simpl; congruence].
    rewrite (add_field_other _ _ _ _ _ _ "ReferenceNumber" H6);
      [|simpl; congruence].
    by rewrite (add_field_other _ _ _ _ _ _ "ReferenceNumber" H5);
      [|simpl; congruence].
Qed.

(** ** The confirm/accept exchange *)

(** A request under one of the three operations reaches the network
    exactly once, whatever comes back. *)
Lemma transmit_request_log (conn : UPSConnection) (url_action : string)
  (ups_request : value) (log : list sent) :
  url_action ∈ ["track"; "ship_confirm"; "ship_accept"] ->
  exists url,
    (_transmit_request conn url_action ups_request log).2 =
    log ++ [Sent url_action url ups_request
              (_generate_xml conn url_action ups_request)].
Proof.
  intros Hin. unfold _transmit_request.
  assert (exists u u',
    dict_getitem production_urls (VStr url_action) = OK u /\
    dict_getitem test_urls (VStr url_action) = OK u') as (u & u' & Hu & Hu').
  { repeat (apply elem_of_cons in Hin as [->|Hin]; [by eexists _, _|]).
    by apply elem_of_nil in Hin. }
  rewrite Hu, Hu'.
  cbv [mbind io_bind lift mret io_ret send].
  destruct (debug conn).
  - exists (url_string u').
    destruct (urlopen _ _); [|done].
    by destruct (dict_response _).
  - exists (url_string u). by destruct (urlopen _ _).
Qed.

Lemma call_count_app (action : string) (log1 log2 : list sent) :
  call_count action (log1 ++ log2) =
  (call_count action log1 + call_count action log2)%nat.
Proof. unfold call_count. by rewrite filter_app, length_app. Qed.

(** The construction once the document is built and the confirm request
    has been answered. *)
Lemma Shipment_init_confirmed (conn : UPSConnection) (a : ShipmentArgs)
  (req : value) (r : UPSResult) (log log1 : list sent) :
  confirm_request conn a = OK req ->
  _transmit_request conn "ship_confirm" req log = (OK r, log1) ->
  Shipment_init conn a log =
  match lacks_digest r with
  | OK true =>
      match d ← dict_response r;
            getitem_path d
              ["ShipmentConfirmResponse"; "Response"; "Error"; "ErrorDescription"]
      with
      | OK error_string => (Err (Exception error_string), log1)
      | Err e => (Err e, log1)
      end
  | OK false =>
      match d ← dict_response r;
            getitem_path d ["ShipmentConfirmResponse"; "ShipmentDigest"]
      with
      | OK digest =>
          match _transmit_request conn "ship_accept" (accept_request digest) log1
          with
          | (OK r2, log2) =>
              (OK {| self_file_format := file_format a;
                     confirm_result := r; accept_result := r2 |}, log2)
          | (Err e, log2) => (Err e, log2)
          end
      | Err e => (Err e, log1)
      end
  | Err e => (Err e, log1)
  end.
Proof.
  intros Hreq Hsent. unfold Shipment_init.
  unfold mbind at 1. unfold io_bind at 1. unfold lift at 1. rewrite Hreq.
  unfold mbind at 1. unfold io_bind at 1. rewrite Hsent.
  unfold mbind at 1. unfold io_bind at 1. unfold lift at 1.
  destruct (lacks_digest r) as [[|]|e]; [| |done].
  - unfold mbind at 1. unfold io_bind at 1. unfold lift at 1.
    by destruct (_ ≫= _).
  - unfold mbind at 1. unfold io_bind at 1. unfold lift at 1.
    destruct (_ ≫= _) as [digest|e]; [|done].
    unfold mbind at 1. unfold io_bind at 1.
    by destruct (_transmit_request conn "ship_accept" _ log1) as [[r2|e] log2].
Qed.

(** C3. When the parsed answer to the confirm request lacks
    [ShipmentDigest], the construction raises; the only request it sent
    is the confirm request, so none went out under [ship_accept]; and
    the exception carries the [ErrorDescription] of the answer as its
    message. *)
Theorem rejected_confirm (conn : UPSConnection) (a : ShipmentArgs)
  (req : value) (r : UPSResult) (log log1 : list sent) :
  confirm_request conn a = OK req ->
  _transmit_request conn "ship_confirm" req log = (OK r, log1) ->
  lacks_digest r = OK true ->
  exists e,
    Shipment_init conn a log = (Err e, log1) /\
    (exists url body, log1 = log ++ [Sent "ship_confirm" url req body]) /\
    call_count "ship_accept" log1 = call_count "ship_accept" log /\
    (forall d error_string,
       dict_response r = OK d ->
       getitem_path d
         ["ShipmentConfirmResponse"; "Response"; "Error"; "ErrorDescription"]
       = OK error_string ->
       e = Exception error_string).
Proof.
  intros Hreq Hsent Hlacks.
  pose proof (Shipment_init_confirmed _ _ _ _ _ _ Hreq Hsent) as Hinit.
  rewrite Hlacks in Hinit.
  destruct (transmit_request_log conn "ship_confirm" req log) as [url Hlog].
  { apply elem_of_cons. right. apply elem_of_cons. by left. }
  rewrite Hsent in Hlog. simpl in Hlog.
  assert (Hcount : call_count "ship_accept" log1 = call_count "ship_accept" log).
  { rewrite Hlog, call_count_app.
    change (call_count "ship_accept" [Sent "ship_confirm" url req _]) with 0%nat.
    lia. }
  destruct (dict_response r) as [d|e] eqn:Hd.
  - cbn [mbind result_bind] in Hinit.
    destruct (getitem_path d _) as [error_string|e] eqn:Herr.
    + exists (Exception error_string). repeat split; eauto.
      intros d' msg [= <-] Hmsg. rewrite Herr in Hmsg. by injection Hmsg as <-.
    + exists e. repeat split; eauto.
      intros d' msg [= <-] Hmsg. by rewrite Herr in Hmsg.
  - exists e. repeat split; eauto. intros d' msg Hd'. discriminate.
Qed.

(** C4. When the parsed answer to the confirm request holds the digest
    [D], the construction sends, after the confirm request, exactly one
    more request: under [ship_accept], with the accept document whose
    [ShipmentDigest] is [D] itself; and the shipment is built from the
    answer to it. *)
Theorem accept_embeds_digest (conn : UPSConnection) (a : ShipmentArgs)
  (req : value) (r : UPSResult) (log log1 : list sent)
  (d : value) (scr : gmap string value) (D : value) :
  confirm_request conn a = OK req ->
  _transmit_request conn "ship_confirm" req log = (OK r, log1) ->
  dict_response r = OK d ->
  getitem d "ShipmentConfirmResponse" = OK (VDict scr) ->
  scr !! "ShipmentDigest" = Some D ->
  exists url,
    (Shipment_init conn a log).2 =
      log1 ++ [Sent "ship_accept" url (accept_request D)
                 (_generate_xml conn "ship_accept" (accept_request D))] /\
    getitem_path (accept_request D) ["ShipmentAcceptRequest"; "ShipmentDigest"]
      = OK D /\
    forall r2 log2,
      _transmit_request conn "ship_accept" (accept_request D) log1
        = (OK r2, log2) ->
      Shipment_init conn a log =
        (OK {| self_file_format := file_format a;
               confirm_result := r; accept_result := r2 |}, log2).
Proof.
  intros Hreq Hsent Hd Hscr HD.
  pose proof (Shipment_init_confirmed _ _ _ _ _ _ Hreq Hsent) as Hinit.
  assert (Hlacks : lacks_digest r = OK false).
  { unfold lacks_digest. rewrite Hd. cbn [mbind result_bind].
    rewrite Hscr. cbn [mbind result_bind]. simpl.
    rewrite bool_decide_eq_true_2; [done|]. by eexists. }
  rewrite Hlacks, Hd in Hinit. cbn [mbind result_bind getitem_path] in Hinit.
  rewrite Hscr in Hinit. cbn [mbind result_bind] in Hinit.
  rewrite getitem_dict, HD in Hinit. cbn [mbind result_bind] in Hinit.
  destruct (transmit_request_log conn "ship_accept" (accept_request D) log1)
    as [url Hlog].
  { do 2 (apply elem_of_cons; right). apply elem_of_cons. by left. }
  exists url. split; [|split; [done|]].
  - rewrite Hinit.
    by destruct (_transmit_request conn "ship_accept" _ log1) as [[r2|e] log2].
  - intros r2 log2 Haccept. by rewrite Hinit, Haccept.
Qed.

End Properties.

(** * The model on sample inputs *)

Example track_one_activity :
  (TrackingInfo_init (Lib := lib_rejecting) conn0 (VStr "1Z999") []).1 = OK tracked.
Proof. reflexivity. Qed.

Example ship_accepted :
  (Shipment_init (Lib := lib_accepting) conn0 args_plain []).1 = OK shipped.
Proof. reflexivity. Qed.

Example reference_entries_codes :
  reference_entries 1 [VStr "PO-77"; VTuple [VStr "IK"; VStr "INV-1"]; VStr "AB"] =
  [ VDict {[ "Code" := VInt 1; "Value" := VStr "PO-77" ]};
    VDict {[ "Code" := VStr "IK"; "Value" := VStr "INV-1" ]};
    VDict {[ "Code" := VStr "A"; "Value" := VStr "B" ]} ].
Proof. reflexivity. Qed.

Example international_refs_document :
  (req ← confirm_request conn0 args_international_refs;
   shipment_entry "ReferenceNumber" req) =
  OK (VList [ VDict {[ "Code" := VInt 1; "Value" := VStr "PO-77" ]};
              VDict {[ "Code" := VStr "IK"; "Value" := VStr "INV-1" ]} ]).
Proof. reflexivity. Qed.

Example domestic_refs_TypeError :
  confirm_request conn0 args_domestic_refs = Err TypeError.
Proof. reflexivity. Qed.

Example signature_TypeError :
  confirm_request conn0 args_signature = Err TypeError.
Proof. reflexivity. Qed.

Example empty_confirmation_key_ignored :
  is_ok (confirm_request conn0 (sample_args "CA" pkg_dims VNone (VStr ""))) = true.
Proof. reflexivity. Qed.

(** ** Instances of the theorems *)

Lemma shipment_activities_normalized_witness :
  shipment_activities (Lib := lib_rejecting) tracked
    = OK (VList [activity "D" "20131105"]) /\
  shipment_activities (Lib := lib_accepting) tracked = OK (VList three_activities).
Proof.
  split.
  - apply (proj1 (shipment_activities_normalized (Lib := lib_rejecting) tracked
      (track_with (activity "D" "20131105")) (activity "D" "20131105")
      eq_refl eq_refl)).
    intros l. discriminate.
  - apply (proj2 (shipment_activities_normalized (Lib := lib_accepting) tracked
      (track_with (VList three_activities)) (VList three_activities)
      eq_refl eq_refl)).
    reflexivity.
Defined.

Lemma delivered_first_D_witness :
  delivered (Lib := lib_accepting) tracked = OK (Some (Datetime 2013 11 5)).
Proof.
  destruct (delivered_first_D (Lib := lib_accepting) tracked three_activities)
    as (_ & Hfirst & _).
  - reflexivity.
  - repeat constructor.
  - rewrite (Hfirst [activity "I" "20131101"] (activity "D" "20131105")
               [activity "D" "20131107"]).
    + reflexivity.
    + reflexivity.
    + repeat constructor.
    + reflexivity.
Defined.

Lemma single_package_result_witness :
  tracking_numbers (Lib := lib_accepting) shipped = OK [VStr "1Z999"] /\
  get_label (Lib := lib_accepting) shipped = OK "hello".
Proof.
  destruct (single_package_result (Lib := lib_accepting) shipped
    (accept_with (VDict (pkg_result "1Z999" "aGVsbG8=")))
    (pkg_result "1Z999" "aGVsbG8=")
    (VDict {[ "label" := VStr "aGVsbG8="; "label_format" := VStr "GIF";
              "tracking_number" := VStr "1Z999" ]})
    eq_refl eq_refl eq_refl)
    as (tn & image & _ & Htn & Hnumbers & Himage & _ & Hlabel).
  injection Htn as <-. injection Himage as <-.
  split; [exact Hnumbers|]. rewrite Hlabel. reflexivity.
Defined.

Lemma no_dimensions_block_witness :
  exists pkgs d,
    shipment_entry "Package" req_two_packages = OK (VList pkgs) /\
    pkgs !! 1%nat = Some (VDict d) /\
    d !! "Dimensions" = None /\
    forall flag d',
      package_vals (VDict (<["fill_dimension" := flag]> pkg_no_dims))
        = OK (VDict d') ->
      delete "Dimensions" d' = d.
Proof.
  apply (no_dimensions_block conn0 args_two_packages req_two_packages
           [pkg_dims; VDict pkg_no_dims] 1 pkg_no_dims); reflexivity.
Defined.

Lemma single_package_info_witness :
  confirm_request conn0 args_plain =
  confirm_request conn0 (with_package_infos args_plain (VList [VDict pkg_no_dims])).
Proof.
  apply (single_package_info (Lib := lib_accepting) conn0 args_plain).
  reflexivity.
Defined.

Lemma delivery_confirmation_raises_witness :
  Shipment_init (Lib := lib_accepting) conn0 args_signature [] = (Err TypeError, []).
Proof.
  destruct (delivery_confirmation_raises (Lib := lib_accepting) conn0
              args_signature (VInt 2) eq_refl eq_refl) as (e & _ & Hinit & Hty).
  rewrite Hinit. rewrite (Hty eq_refl). reflexivity.
Defined.

Lemma unknown_delivery_confirmation_witness :
  Shipment_init (Lib := lib_accepting) conn0 args_unknown_confirmation [] =
  (Err (KeyError (VStr "signature")), []).
Proof.
  destruct (unknown_delivery_confirmation (Lib := lib_accepting) conn0
              args_unknown_confirmation) as (e & _ & Hinit & Hkey).
  - reflexivity.
  - intros s [= <-]. reflexivity.
  - rewrite Hinit. rewrite (Hkey eq_refl eq_refl). reflexivity.
Defined.

Lemma domestic_reference_numbers_raise_witness :
  Shipment_init (Lib := lib_accepting) conn0 args_domestic_refs [] =
  (Err TypeError, []).
Proof.
  destruct (domestic_reference_numbers_raise (Lib := lib_accepting) conn0
              args_domestic_refs eq_refl eq_refl) as (e & _ & Hinit & Hty).
  rewrite Hinit. erewrite Hty; reflexivity.
Defined.

Lemma rejected_confirm_witness :
  (Shipment_init (Lib := lib_rejecting) conn0 args_plain []).1 =
    Err (Exception (VStr "Invalid address")) /\
  call_count "ship_accept"
    (Shipment_init (Lib := lib_rejecting) conn0 args_plain []).2 = 0%nat.
Proof.
  destruct (rejected_confirm (Lib := lib_rejecting) conn0 args_plain
              req_plain (confirm_result shipped) []
              (_transmit_request (Lib := lib_rejecting) conn0 "ship_confirm"
                 req_plain []).2)
    as (e & Hinit & _ & Hcount & Hmsg).
  - reflexivity.
  - reflexivity.
  - reflexivity.
  - rewrite Hinit. split; [|exact Hcount].
    simpl. f_equal. eapply Hmsg; reflexivity.
Defined.

Lemma accept_embeds_digest_witness :
  sent_request <$> last (Shipment_init (Lib := lib_accepting) conn0 args_plain []).2
  = Some (accept_request (VStr "DIGEST0")).
Proof.
  destruct (accept_embeds_digest (Lib := lib_accepting) conn0 args_plain
              req_plain (confirm_result shipped) []
              (_transmit_request (Lib := lib_accepting) conn0 "ship_confirm"
                 req_plain []).2
              (confirm_ok "DIGEST0")
              {[ "ShipmentDigest" := VStr "DIGEST0";
                 "ShipmentIdentificationNumber" := VStr "1Z999" ]}
              (VStr "DIGEST0"))
    as (url & Hlog & _).
  - reflexivity.
  - reflexivity.
  - reflexivity.
  - reflexivity.
  - reflexivity.
  - rewrite Hlog. rewrite last_snoc. reflexivity.
Defined.

(** * Further properties of the module *)

(** ** Reading a document after an assignment *)

Lemma setitem_path_read (v : value) (path : list string) (k : string)
  (x v' : value) :
  setitem_path v path k x = OK v' -> getitem_path v' (path ++ [k]) = OK x.
Proof.
  revert v v'. induction path as [|p ps IH]; intros v v' H.
  - simpl in H. apply setitem_OK in H as (d & -> & ->). simpl.
    unfold dict_getitem. simpl. by rewrite lookup_insert_eq.
  - apply setitem_path_under in H as (sub & sub' & _ & H & Hsub').
    simpl. rewrite Hsub'. simpl. by apply (IH sub).
Qed.

Lemma setitem_path_read_other (v : value) (path : list string) (k : string)
  (x v' : value) (q : list string) :
  setitem_path v path k x = OK v' ->
  diverge (path ++ [k]) q = true ->
  getitem_path v' q = getitem_path v q.
Proof.
  revert v v' q. induction path as [|p ps IH]; intros v v' q H Hq.
  - destruct q as [|b q']; [done|]. simpl in Hq.
    destruct (String.eqb k b) eqn:E; [by destruct q'|].
    apply String.eqb_neq in E. simpl.
    by rewrite (setitem_path_other _ [] _ _ _ b H).
  - destruct q as [|b q']; [done|]. simpl in Hq.
    destruct (String.eqb p b) eqn:E.
    + apply String.eqb_eq in E as <-.
      apply setitem_path_under in H as (sub & sub' & Hsub & H & Hsub').
      simpl. rewrite Hsub, Hsub'. simpl. by apply (IH sub).
    + apply String.eqb_neq in E. simpl.
      by rewrite (setitem_path_other _ (p :: ps) _ _ _ b H).
Qed.

(** ** The steps of [__init__] on the entries they do not assign *)

Lemma add_alternate_addr_read_other (a : ShipmentArgs) (req req' : value)
  (q : list string) :
  add_alternate_addr a req = OK req' ->
  diverge (shipment_path ++ ["AlternateDeliveryAddress"]) q = true ->
  getitem_path req' q = getitem_path req q.
Proof.
  unfold add_alternate_addr. destruct (truthy (alternate_addr a)).
  - intros H Hq. do 3 inv_bind H.
    by apply (setitem_path_read_other _ _ _ _ _ q) in H.
  - by intros [= ->].
Qed.

Lemma add_location_id_read_other (a : ShipmentArgs) (req req' : value)
  (q : list string) :
  add_location_id a req = OK req' ->
  diverge (shipment_path ++ ["ShipTo"; "LocationID"]) q = true ->
  diverge (shipment_path ++ ["ShipmentIndicationType"]) q = true ->
  getitem_path req' q = getitem_path req q.
Proof.
  unfold add_location_id. intros H Hq1 Hq2. inv_bind H.
  destruct (truthy a0).
  - apply bind_OK in H as (loc & _ & H).
    apply bind_OK in H as (req1 & Hreq1 & H).
    apply (setitem_path_read_other _ _ _ _ _ q) in H; [|done].
    apply (setitem_path_read_other _ _ _ _ _ q) in Hreq1; [|done].
    congruence.
  - by injection H as ->.
Qed.

Lemma add_reference_numbers_read_other (a : ShipmentArgs) (req req' : value)
  (pkgs : list value) (q : list string) :
  shipment_entry "Package" req = OK (VList pkgs) ->
  add_reference_numbers a req = OK req' ->
  diverge (shipment_path ++ ["Description"]) q = true ->
  diverge (shipment_path ++ ["ReferenceNumber"]) q = true ->
  getitem_path req' q = getitem_path req q.
Proof.
  intros Hp. unfold add_reference_numbers.
  destruct (truthy (reference_numbers a)); [|by intros [= ->]].
  intros H Hq1 Hq2.
  apply bind_OK in H as (items & _ & H).
  apply bind_OK in H as (domestic & _ & H).
  destruct domestic.
  - by rewrite (setitem_through_packages _ _ [] _ _ Hp) in H.
  - apply bind_OK in H as (req1 & Hreq1 & H).
    apply (setitem_path_read_other _ _ _ _ _ q) in H; [|done].
    apply (setitem_path_read_other _ _ _ _ _ q) in Hreq1; [|done].
    congruence.
Qed.

Lemma add_field_read_other (addr : value) (key : string) (path : list string)
  (field : string) (req req' : value) (q : list string) :
  add_field addr key path field req = OK req' ->
  diverge (path ++ [field]) q = true ->
  getitem_path req' q = getitem_path req q.
Proof.
  unfold add_field. intros H Hq. inv_bind H. destruct (truthy a).
  - inv_bind H. by apply (setitem_path_read_other _ _ _ _ _ q) in H.
  - by injection H as ->.
Qed.

(** What [add_field] leaves at its own target. *)
Lemma add_field_read (addr : value) (key : string) (path : list string)
  (field : string) (req req' : value) :
  add_field addr key path field req = OK req' ->
  exists x, get addr key VNone = OK x /\
    if truthy x
    then getitem_path req' (path ++ [field]) = getitem addr key
    else req' = req.
Proof.
  unfold add_field. intros H. inv_bind H. exists a. split; [done|].
  destruct (truthy a).
  - inv_bind H. rewrite Ha0. by apply setitem_path_read in H.
  - by injection H as ->.
Qed.

(** The parts of the document as first written. *)
Lemma base_request_inv (conn : UPSConnection) (a : ShipmentArgs) (r0 : value) :
  base_request conn a = OK r0 ->
  exists infos pkgs from_name from_attn from_phone from_email from_address
         to_name to_attn to_phone to_email to_address code service_code
         service_desc,
    package_info_list (package_infos a) = OK infos /\
    mapM package_vals infos = OK pkgs /\
    getitem (from_addr a) "name" = OK from_name /\
    attention_name (from_addr a) = OK from_attn /\
    getitem (from_addr a) "phone" = OK from_phone /\
    get (from_addr a) "email" (VStr "") = OK from_email /\
    address_block (from_addr a) = OK from_address /\
    getitem (to_addr a) "name" = OK to_name /\
    attention_name (to_addr a) = OK to_attn /\
    get (to_addr a) "phone" VNone = OK to_phone /\
    get (to_addr a) "email" (VStr "") = OK to_email /\
    address_block (to_addr a) = OK to_address /\
    getitem (shipping_service_dict (shipping_service a)) "code" = OK code /\
    dict_get SHIPPING_SERVICES code code = OK service_code /\
    get (shipping_service_dict (shipping_service a)) "desc" VNone
      = OK service_desc /\
    r0 = VDict {[
      "ShipmentConfirmRequest" := VDict {[
        "Request" := VDict {[
          "TransactionReference" := VDict {[
            "CustomerContext" := VStr "get new shipment";
            "XpciVersion" := VStr "1.0001" ]};
          "RequestAction" := VStr "ShipConfirm";
          "RequestOption" := VStr "nonvalidate" ]};
        "Shipment" := VDict {[
          "Shipper" := VDict {[
            "Name" := from_name;
            "AttentionName" := from_attn;
            "PhoneNumber" := from_phone;
            "ShipperNumber" := shipper_number conn;
            "EMailAddress" := from_email;
            "Address" := from_address ]};
          "ShipTo" := VDict {[
            "CompanyName" := to_name;
            "AttentionName" := to_attn;
            "PhoneNumber" := to_phone;
            "EMailAddress" := to_email;
            "Address" := to_address ]};
          "Service" := VDict {[
            "Code" := service_code;
            "Description" := service_desc ]};
          "PaymentInformation" := VDict {[
            "Prepaid" := VDict {[
              "BillShipper" := VDict {[
                "AccountNumber" := shipper_number conn ]} ]} ]};
          "Package" := VList pkgs ]};
        "LabelSpecification" := VDict {[
          "LabelPrintMethod" := VDict {[ "Code" := file_format a ]};
          "LabelStockSize" := VDict {[
            "Width" := VStr "6";
            "Height" := VStr "4" ]};
          "HTTPUserAgent" := VStr "Mozilla/4.5";
          "LabelImageFormat" := VDict {[ "Code" := VStr "GIF" ]} ]} ]} ]}.
Proof.
  unfold base_request. intros H.
  apply bind_OK in H as (infos & ? & H).
  apply bind_OK in H as (pkgs & ? & H).
  apply bind_OK in H as (from_name & ? & H).
  apply bind_OK in H as (from_attn & ? & H).
  apply bind_OK in H as (from_phone & ? & H).
  apply bind_OK in H as (from_email & ? & H).
  apply bind_OK in H as (from_address & ? & H).
  apply bind_OK in H as (to_name & ? & H).
  apply bind_OK in H as (to_attn & ? & H).
  apply bind_OK in H as (to_phone & ? & H).
  apply bind_OK in H as (to_email & ? & H).
  apply bind_OK in H as (to_address & ? & H).
  apply bind_OK in H as (code & ? & H).
  apply bind_OK in H as (code' & Hcode' & H).
  assert (code' = code) as -> by congruence.
  apply bind_OK in H as (service_code & ? & H).
  apply bind_OK in H as (service_desc & ? & H).
  injection H as <-.
  exists infos, pkgs, from_name, from_attn, from_phone, from_email, from_address,
    to_name, to_attn, to_phone, to_email, to_address, code, service_code,
    service_desc.
  repeat (split; [assumption|]). reflexivity.
Qed.

(** An entry of a built document that no assignment targets is the one
    first written. *)
Lemma confirm_request_unassigned (conn : UPSConnection) (a : ShipmentArgs)
  (req : value) (q : list string) :
  confirm_request conn a = OK req ->
  unassigned q = true ->
  exists r0, base_request conn a = OK r0 /\
             getitem_path req q = getitem_path r0 q.
Proof.
  intros H Hq.
  apply confirm_request_inv in H
    as (r0 & r2 & r3 & r4 & r5 & r6 & H0 & _ & _ & H2 & H3 & H4 & H5 & H6 & H7).
  exists r0. split; [done|].
  destruct (base_request_packages _ _ _ H0) as (? & pkgs & _ & _ & Hp).
  assert (Hp3 : shipment_entry "Package" r3 = OK (VList pkgs)).
  { rewrite (add_location_id_other _ _ _ "Package" H3); [|congruence..].
    rewrite (add_alternate_addr_other _ _ _ "Package" H2); [done|congruence]. }
  unfold unassigned, assigned_paths in Hq. simpl forallb in Hq.
  repeat (apply andb_prop in Hq as [? Hq]).
  rewrite (add_field_read_other _ _ _ _ _ _ q H7) by done.
  rewrite (add_field_read_other _ _ _ _ _ _ q H6) by done.
  rewrite (add_field_read_other _ _ _ _ _ _ q H5) by done.
  rewrite (add_reference_numbers_read_other _ _ _ _ q Hp3 H4) by done.
  rewrite (add_location_id_read_other _ _ _ q H3) by done.
  by rewrite (add_alternate_addr_read_other _ _ _ q H2).
Qed.

Lemma add_location_id_read (a : ShipmentArgs) (req req' : value) :
  add_location_id a req = OK req' ->
  exists x, get (to_addr a) "location_id" VNone = OK x /\
    if truthy x
    then getitem_path req' (shipment_path ++ ["ShipTo"; "LocationID"]) = OK x /\
         shipment_entry "ShipmentIndicationType" req'
           = OK (VDict {[ "Code" := VStr "01" ]})
    else req' = req.
Proof.
  unfold add_location_id. intros H. inv_bind H. exists a0. split; [done|].
  destruct (truthy a0).
  - apply bind_OK in H as (loc & Hloc & H).
    apply bind_OK in H as (req1 & Hreq1 & H).
    assert (loc = a0) as -> by congruence.
    split.
    + rewrite (setitem_path_read_other _ _ _ _ _ _ H) by reflexivity.
      by apply (setitem_path_read _ (shipment_path ++ ["ShipTo"])) in Hreq1.
    + by apply setitem_shipment_entry in H.
  - by injection H as ->.
Qed.

Lemma add_alternate_addr_read (a : ShipmentArgs) (req req' : value) :
  add_alternate_addr a req = OK req' ->
  if truthy (alternate_addr a)
  then exists name attn address,
    getitem (alternate_addr a) "name" = OK name /\
    attention_name (alternate_addr a) = OK attn /\
    address_block (alternate_addr a) = OK address /\
    shipment_entry "AlternateDeliveryAddress" req' =
      OK (VDict {[ "Name" := name; "AttentionName" := attn;
                   "Address" := address ]})
  else req' = req.
Proof.
  unfold add_alternate_addr. destruct (truthy (alternate_addr a)).
  - intros H.
    apply bind_OK in H as (name & ? & H).
    apply bind_OK in H as (attn & ? & H).
    apply bind_OK in H as (address & ? & H).
    exists name, attn, address. repeat split; try done.
    by apply setitem_shipment_entry in H.
  - by intros [= ->].
Qed.

Lemma attention_name_dict (d : gmap string value) :
  attention_name (VDict d) =
  if truthy (default VNone (d !! "attn"))
  then OK (default VNone (d !! "attn"))
  else getitem (VDict d) "name".
Proof. reflexivity. Qed.

Lemma getitem_is_dict (v : value) (k : string) (x : value) :
  getitem v k = OK x -> exists d, v = VDict d.
Proof. intros H. apply getitem_OK in H as (d & -> & _). eauto. Qed.

Lemma address_block_inv (addr block : value) :
  address_block addr = OK block ->
  exists address1 city state country postal_code,
    getitem addr "address1" = OK address1 /\
    getitem addr "city" = OK city /\
    getitem addr "state" = OK state /\
    getitem addr "country" = OK country /\
    getitem addr "postal_code" = OK postal_code /\
    block = VDict {[
      "AddressLine1" := address1;
      "City" := city;
      "StateProvinceCode" := state;
      "CountryCode" := country;
      "PostalCode" := postal_code ]}.
Proof.
  unfold address_block. intros H.
  apply bind_OK in H as (address1 & ? & H).
  apply bind_OK in H as (city & ? & H).
  apply bind_OK in H as (state & ? & H).
  apply bind_OK in H as (country & ? & H).
  apply bind_OK in H as (postal_code & ? & H).
  injection H as <-.
  exists address1, city, state, country, postal_code. by repeat split.
Qed.

(** ** The built document, entry by entry *)

(** X1. In a built document the service block depends on
    [shipping_service] as follows: when it is absent, the code is "03"
    with the description "Ground"; when it is a bare string, the code is
    the entry of [SHIPPING_SERVICES] for it, or the string itself when
    the table has none, and there is no description; when it is a
    dictionary, its code goes through the table in the same way and its
    [desc] is the description. *)
Theorem service_block (conn : UPSConnection) (a : ShipmentArgs) (req : value) :
  confirm_request conn a = OK req ->
  (truthy (shipping_service a) = false ->
   shipment_entry "Service" req =
     OK (VDict {[ "Code" := VStr "03"; "Description" := VStr "Ground" ]})) /\
  (forall s, shipping_service a = VStr s -> s <> "" ->
   shipment_entry "Service" req =
     OK (VDict {[ "Code" := default (VStr s) (SHIPPING_SERVICES !! s);
                  "Description" := VNone ]})) /\
  (forall d, shipping_service a = VDict d -> d <> ∅ ->
   exists code service_code,
     d !! "code" = Some code /\
     dict_get SHIPPING_SERVICES code code = OK service_code /\
     shipment_entry "Service" req =
       OK (VDict {[ "Code" := service_code;
                    "Description" := default VNone (d !! "desc") ]})).
Proof.
  intros Hreq.
  destruct (confirm_request_unassigned _ _ _ (shipment_path ++ ["Service"])
              Hreq eq_refl) as (r0 & H0 & Hread).
  apply base_request_inv in H0
    as (infos & pkgs & from_name & from_attn & from_phone & from_email &
        from_address & to_name & to_attn & to_phone & to_email & to_address &
        code & service_code & service_desc &
        _ & _ & _ & _ & _ & _ & _ & _ & _ & _ & _ & _ &
        Hcode & Hservice & Hdesc & ->).
  unfold shipment_entry. rewrite Hread. clear Hread.
  unfold shipping_service_dict in Hcode, Hdesc.
  split; [|split].
  - intros Hfalsy. rewrite Hfalsy in Hcode, Hdesc. simpl in Hcode, Hdesc.
    injection Hcode as <-. injection Hdesc as <-.
    injection Hservice as <-. reflexivity.
  - intros s Hs Hne. rewrite Hs in Hcode, Hdesc. simpl in Hcode, Hdesc.
    assert (Hnonempty : negb (String.eqb s "") = true).
    { apply negb_true_iff. by apply String.eqb_neq. }
    rewrite Hnonempty in Hcode, Hdesc. simpl in Hcode, Hdesc.
    injection Hcode as <-. injection Hdesc as <-.
    injection Hservice as <-. reflexivity.
  - intros d Hd Hne. rewrite Hd in Hcode, Hdesc. simpl in Hcode, Hdesc.
    rewrite bool_decide_eq_false_2 in Hcode, Hdesc by done.
    simpl in Hcode, Hdesc.
    unfold dict_getitem in Hcode. simpl in Hcode.
    destruct (d !! "code") as [c|] eqn:Hc; [|done]. injection Hcode as <-.
    unfold dict_get in Hdesc. simpl in Hdesc. injection Hdesc as <-.
    exists c, service_code. by repeat split.
Qed.

(** The steps of a built document, with the list of package blocks the
    reference-number step finds. *)
Lemma confirm_request_steps (conn : UPSConnection) (a : ShipmentArgs) (req : value) :
  confirm_request conn a = OK req ->
  exists r0 r2 r3 r4 r5 r6 pkgs,
    base_request conn a = OK r0 /\
    add_alternate_addr a r0 = OK r2 /\
    add_location_id a r2 = OK r3 /\
    shipment_entry "Package" r3 = OK (VList pkgs) /\
    add_reference_numbers a r3 = OK r4 /\
    add_field (from_addr a) "address2"
      (shipment_path ++ ["Shipper"; "Address"]) "AddressLine2" r4 = OK r5 /\
    add_field (to_addr a) "company"
      (shipment_path ++ ["ShipTo"]) "CompanyName" r5 = OK r6 /\
    add_field (to_addr a) "address2"
      (shipment_path ++ ["ShipTo"; "Address"]) "AddressLine2" r6 = OK req.
Proof.
  intros H.
  apply confirm_request_inv in H
    as (r0 & r2 & r3 & r4 & r5 & r6 & H0 & _ & _ & H2 & H3 & H4 & H5 & H6 & H7).
  destruct (base_request_packages _ _ _ H0) as (? & pkgs & _ & _ & Hp).
  exists r0, r2, r3, r4, r5, r6, pkgs. repeat split; try done.
  rewrite (add_location_id_other _ _ _ "Package" H3); [|congruence..].
  rewrite (add_alternate_addr_other _ _ _ "Package" H2); [done|congruence].
Qed.

(** X2. In a built document the shipper number of the connection is both
    the shipper's number and the account that is billed. *)
Theorem shipper_account (conn : UPSConnection) (a : ShipmentArgs) (req : value) :
  confirm_request conn a = OK req ->
  getitem_path req (shipment_path ++ ["Shipper"; "ShipperNumber"])
    = OK (shipper_number conn) /\
  getitem_path req
    (shipment_path ++ ["PaymentInformation"; "Prepaid"; "BillShipper";
                       "AccountNumber"])
    = OK (shipper_number conn).
Proof.
  intros Hreq. split.
  - destruct (confirm_request_unassigned _ _ _
      (shipment_path ++ ["Shipper"; "ShipperNumber"]) Hreq eq_refl)
      as (r0 & H0 & ->).
    apply base_request_inv in H0
      as (? & ? & ? & ? & ? & ? & ? & ? & ? & ? & ? & ? & ? & ? & ? &
          _ & _ & _ & _ & _ & _ & _ & _ & _ & _ & _ & _ & _ & _ & _ & ->).
    reflexivity.
  - destruct (confirm_request_unassigned _ _ _
      (shipment_path ++ ["PaymentInformation"; "Prepaid"; "BillShipper";
                         "AccountNumber"]) Hreq eq_refl)
      as (r0 & H0 & ->).
    apply base_request_inv in H0
      as (? & ? & ? & ? & ? & ? & ? & ? & ? & ? & ? & ? & ? & ? & ? &
          _ & _ & _ & _ & _ & _ & _ & _ & _ & _ & _ & _ & _ & _ & _ & ->).
    reflexivity.
Qed.

(** X3. In a built document the label is asked for in the caller's
    [file_format], on 6 by 4 stock, and its image format is "GIF"
    whatever the caller asked for. *)
Theorem label_specification (conn : UPSConnection) (a : ShipmentArgs)
  (req : value) :
  confirm_request conn a = OK req ->
  getitem_path req ["ShipmentConfirmRequest"; "LabelSpecification"] =
  OK (VDict {[
    "LabelPrintMethod" := VDict {[ "Code" := file_format a ]};
    "LabelStockSize" := VDict {[ "Width" := VStr "6"; "Height" := VStr "4" ]};
    "HTTPUserAgent" := VStr "Mozilla/4.5";
    "LabelImageFormat" := VDict {[ "Code" := VStr "GIF" ]} ]}).
Proof.
  intros Hreq.
  destruct (confirm_request_unassigned _ _ _
      ["ShipmentConfirmRequest"; "LabelSpecification"] Hreq eq_refl)
      as (r0 & H0 & ->).
  apply base_request_inv in H0
    as (? & ? & ? & ? & ? & ? & ? & ? & ? & ? & ? & ? & ? & ? & ? &
        _ & _ & _ & _ & _ & _ & _ & _ & _ & _ & _ & _ & _ & _ & _ & ->).
  reflexivity.
Qed.

(** X4. In a built document both addresses are dictionaries with a
    [name]; the attention name of the shipper and of the recipient is the
    [attn] of the address when it has a true one, and its [name]
    otherwise. *)
Theorem attention_names (conn : UPSConnection) (a : ShipmentArgs) (req : value) :
  confirm_request conn a = OK req ->
  exists f t from_name to_name,
    from_addr a = VDict f /\ to_addr a = VDict t /\
    f !! "name" = Some from_name /\ t !! "name" = Some to_name /\
    getitem_path req (shipment_path ++ ["Shipper"; "Name"]) = OK from_name /\
    getitem_path req (shipment_path ++ ["Shipper"; "AttentionName"]) =
      OK (if truthy (default VNone (f !! "attn"))
          then default VNone (f !! "attn") else from_name) /\
    getitem_path req (shipment_path ++ ["ShipTo"; "AttentionName"]) =
      OK (if truthy (default VNone (t !! "attn"))
          then default VNone (t !! "attn") else to_name).
Proof.
  intros Hreq.
  destruct (confirm_request_unassigned _ _ _
      (shipment_path ++ ["Shipper"; "Name"]) Hreq eq_refl) as (r0 & H0 & ->).
  destruct (confirm_request_unassigned _ _ _
      (shipment_path ++ ["Shipper"; "AttentionName"]) Hreq eq_refl)
      as (r0' & H0' & ->).
  destruct (confirm_request_unassigned _ _ _
      (shipment_path ++ ["ShipTo"; "AttentionName"]) Hreq eq_refl)
      as (r0'' & H0'' & ->).
  assert (r0' = r0) as -> by congruence.
  assert (r0'' = r0) as -> by congruence.
  apply base_request_inv in H0
    as (? & ? & from_name & from_attn & ? & ? & ? & to_name & to_attn &
        ? & ? & ? & ? & ? & ? &
        _ & _ & Hfn & Hfa & _ & _ & _ & Htn & Hta & _ & _ & _ & _ & _ & _ & ->).
  apply getitem_OK in Hfn as (f & Hf & Hfn).
  apply getitem_OK in Htn as (t & Ht & Htn).
  exists f, t, from_name, to_name. rewrite Hf, Ht in *.
  rewrite attention_name_dict, getitem_dict in Hfa, Hta.
  rewrite Hfn in Hfa. rewrite Htn in Hta.
  repeat split; try done.
  - change (OK from_attn = OK (if truthy (default VNone (f !! "attn"))
                               then default VNone (f !! "attn") else from_name)).
    rewrite <- Hfa. by destruct (truthy (default VNone (f !! "attn"))).
  - change (OK to_attn = OK (if truthy (default VNone (t !! "attn"))
                             then default VNone (t !! "attn") else to_name)).
    rewrite <- Hta. by destruct (truthy (default VNone (t !! "attn"))).
Qed.

Lemma truthy_default_lookup (d : gmap string value) (k : string) :
  truthy (default VNone (d !! k)) = true ->
  getitem (VDict d) k = OK (default VNone (d !! k)).
Proof. rewrite getitem_dict. by destruct (d !! k). Qed.

(** X5. In a built document the company name of the recipient is the
    [company] of the address when it has a true one, and its [name]
    otherwise. *)
Theorem company_name (conn : UPSConnection) (a : ShipmentArgs) (req : value) :
  confirm_request conn a = OK req ->
  exists t to_name,
    to_addr a = VDict t /\ t !! "name" = Some to_name /\
    getitem_path req (shipment_path ++ ["ShipTo"; "CompanyName"]) =
      OK (if truthy (default VNone (t !! "company"))
          then default VNone (t !! "company") else to_name).
Proof.
  intros Hreq.
  apply confirm_request_steps in Hreq
    as (r0 & r2 & r3 & r4 & r5 & r6 & pkgs & H0 & H2 & H3 & Hp & H4 & H5 & H6 & H7).
  apply base_request_inv in H0
    as (? & ? & ? & ? & ? & ? & ? & to_name & ? & ? & ? & ? & ? & ? & ? &
        _ & _ & _ & _ & _ & _ & _ & Htn & _ & _ & _ & _ & _ & _ & _ & ->).
  apply getitem_OK in Htn as (t & Ht & Htn).
  exists t, to_name. split; [done|]. split; [done|].
  rewrite (add_field_read_other _ _ _ _ _ _ _ H7) by reflexivity.
  apply add_field_read in H6 as (val & Hval & H6).
  rewrite Ht, get_dict in Hval. injection Hval as <-.
  destruct (truthy (default VNone (t !! "company"))) eqn:E.
  - etrans; [exact H6|]. rewrite Ht. by apply truthy_default_lookup.
  - subst r6.
    rewrite (add_field_read_other _ _ _ _ _ _ _ H5) by reflexivity.
    rewrite (add_reference_numbers_read_other _ _ _ _ _ Hp H4) by reflexivity.
    rewrite (add_location_id_read_other _ _ _ _ H3) by reflexivity.
    by rewrite (add_alternate_addr_read_other _ _ _ _ H2) by reflexivity.
Qed.

(** X6. In a built document an address block has a second line exactly
    when the address has a true [address2], and it is that value; this
    holds for the shipper and for the recipient. *)
Theorem second_address_lines (conn : UPSConnection) (a : ShipmentArgs)
  (req : value) :
  confirm_request conn a = OK req ->
  exists f t,
    from_addr a = VDict f /\ to_addr a = VDict t /\
    getitem_path req (shipment_path ++ ["Shipper"; "Address"; "AddressLine2"]) =
      (if truthy (default VNone (f !! "address2"))
       then OK (default VNone (f !! "address2"))
       else Err (KeyError (VStr "AddressLine2"))) /\
    getitem_path req (shipment_path ++ ["ShipTo"; "Address"; "AddressLine2"]) =
      (if truthy (default VNone (t !! "address2"))
       then OK (default VNone (t !! "address2"))
       else Err (KeyError (VStr "AddressLine2"))).
Proof.
  intros Hreq.
  apply confirm_request_steps in Hreq
    as (r0 & r2 & r3 & r4 & r5 & r6 & pkgs & H0 & H2 & H3 & Hp & H4 & H5 & H6 & H7).
  apply base_request_inv in H0
    as (? & ? & from_name & ? & ? & ? & from_address & to_name & ? & ? & ? &
        to_address & ? & ? & ? &
        _ & _ & Hfn & _ & _ & _ & Hfaddr & Htn & _ & _ & _ & Htaddr & _ & _ & _
        & ->).
  apply getitem_OK in Hfn as (f & Hf & _).
  apply getitem_OK in Htn as (t & Ht & _).
  apply address_block_inv in Hfaddr as (? & ? & ? & ? & ? & _ & _ & _ & _ & _ & ->).
  apply address_block_inv in Htaddr as (? & ? & ? & ? & ? & _ & _ & _ & _ & _ & ->).
  exists f, t. split; [done|]. split; [done|]. split.
  - rewrite (add_field_read_other _ _ _ _ _ _ _ H7) by reflexivity.
    rewrite (add_field_read_other _ _ _ _ _ _ _ H6) by reflexivity.
    apply add_field_read in H5 as (val & Hval & H5).
    rewrite Hf, get_dict in Hval. injection Hval as <-.
    destruct (truthy (default VNone (f !! "address2"))) eqn:E.
    + etrans; [exact H5|]. rewrite Hf. by apply truthy_default_lookup.
    + subst r5.
      rewrite (add_reference_numbers_read_other _ _ _ _ _ Hp H4) by reflexivity.
      rewrite (add_location_id_read_other _ _ _ _ H3) by reflexivity.
      by rewrite (add_alternate_addr_read_other _ _ _ _ H2) by reflexivity.
  - apply add_field_read in H7 as (val & Hval & H7).
    rewrite Ht, get_dict in Hval. injection Hval as <-.
    destruct (truthy (default VNone (t !! "address2"))) eqn:E.
    + etrans; [exact H7|]. rewrite Ht. by apply truthy_default_lookup.
    + subst r6.
      rewrite (add_field_read_other _ _ _ _ _ _ _ H6) by reflexivity.
      rewrite (add_field_read_other _ _ _ _ _ _ _ H5) by reflexivity.
      rewrite (add_reference_numbers_read_other _ _ _ _ _ Hp H4) by reflexivity.
      rewrite (add_location_id_read_other _ _ _ _ H3) by reflexivity.
      by rewrite (add_alternate_addr_read_other _ _ _ _ H2) by reflexivity.
Qed.

(** X7. In a built document a recipient with a true [location_id] has
    it as [LocationID], and the shipment carries the indication type
    "01"; without one, the document has neither entry. *)
Theorem location_id_entries (conn : UPSConnection) (a : ShipmentArgs)
  (req : value) :
  confirm_request conn a = OK req ->
  exists t,
    to_addr a = VDict t /\
    if truthy (default VNone (t !! "location_id"))
    then
      getitem_path req (shipment_path ++ ["ShipTo"; "LocationID"])
        = OK (default VNone (t !! "location_id")) /\
      shipment_entry "ShipmentIndicationType" req
        = OK (VDict {[ "Code" := VStr "01" ]})
    else
      getitem_path req (shipment_path ++ ["ShipTo"; "LocationID"])
        = Err (KeyError (VStr "LocationID")) /\
      shipment_entry "ShipmentIndicationType" req
        = Err (KeyError (VStr "ShipmentIndicationType")).
Proof.
  intros Hreq.
  apply confirm_request_steps in Hreq
    as (r0 & r2 & r3 & r4 & r5 & r6 & pkgs & H0 & H2 & H3 & Hp & H4 & H5 & H6 & H7).
  apply base_request_inv in H0
    as (? & ? & ? & ? & ? & ? & ? & to_name & ? & ? & ? & ? & ? & ? & ? &
        _ & _ & _ & _ & _ & _ & _ & Htn & _ & _ & _ & _ & _ & _ & _ & ->).
  apply getitem_OK in Htn as (t & Ht & _).
  exists t. split; [done|].
  unfold shipment_entry.
  rewrite !(add_field_read_other _ _ _ _ _ _ _ H7) by reflexivity.
  rewrite !(add_field_read_other _ _ _ _ _ _ _ H6) by reflexivity.
  rewrite !(add_field_read_other _ _ _ _ _ _ _ H5) by reflexivity.
  rewrite !(add_reference_numbers_read_other _ _ _ _ _ Hp H4) by reflexivity.
  apply add_location_id_read in H3 as (val & Hval & H3).
  rewrite Ht, get_dict in Hval. injection Hval as <-.
  destruct (truthy (default VNone (t !! "location_id"))).
  - exact H3.
  - subst r3.
    by rewrite !(add_alternate_addr_read_other _ _ _ _ H2) by reflexivity.
Qed.

(** X8. In a built document a true [alternate_addr] gives the block
    [AlternateDeliveryAddress] with its name, attention name and
    address; without one the document has no such entry. *)
Theorem alternate_delivery_address (conn : UPSConnection) (a : ShipmentArgs)
  (req : value) :
  confirm_request conn a = OK req ->
  if truthy (alternate_addr a)
  then exists name attn address,
    getitem (alternate_addr a) "name" = OK name /\
    attention_name (alternate_addr a) = OK attn /\
    address_block (alternate_addr a) = OK address /\
    shipment_entry "AlternateDeliveryAddress" req =
      OK (VDict {[ "Name" := name; "AttentionName" := attn;
                   "Address" := address ]})
  else
    shipment_entry "AlternateDeliveryAddress" req =
      Err (KeyError (VStr "AlternateDeliveryAddress")).
Proof.
  intros Hreq.
  apply confirm_request_steps in Hreq
    as (r0 & r2 & r3 & r4 & r5 & r6 & pkgs & H0 & H2 & H3 & Hp & H4 & H5 & H6 & H7).
  unfold shipment_entry.
  rewrite !(add_field_read_other _ _ _ _ _ _ _ H7) by reflexivity.
  rewrite !(add_field_read_other _ _ _ _ _ _ _ H6) by reflexivity.
  rewrite !(add_field_read_other _ _ _ _ _ _ _ H5) by reflexivity.
  rewrite !(add_reference_numbers_read_other _ _ _ _ _ Hp H4) by reflexivity.
  rewrite !(add_location_id_read_other _ _ _ _ H3) by reflexivity.
  apply add_alternate_addr_read in H2.
  destruct (truthy (alternate_addr a)).
  - exact H2.
  - subst r2.
    apply base_request_inv in H0
      as (? & ? & ? & ? & ? & ? & ? & ? & ? & ? & ? & ? & ? & ? & ? &
          _ & _ & _ & _ & _ & _ & _ & _ & _ & _ & _ & _ & _ & _ & _ & ->).
    reflexivity.
Qed.

(** X9. Without reference numbers the [description] never reaches the
    document: a document built with a false [reference_numbers] has
    neither a [Description] nor a [ReferenceNumber] entry in its
    shipment block. *)
Theorem no_reference_numbers_no_description (conn : UPSConnection)
  (a : ShipmentArgs) (req : value) :
  confirm_request conn a = OK req ->
  truthy (reference_numbers a) = false ->
  shipment_entry "Description" req = Err (KeyError (VStr "Description")) /\
  shipment_entry "ReferenceNumber" req = Err (KeyError (VStr "ReferenceNumber")).
Proof.
  intros Hreq Hrefs.
  apply confirm_request_steps in Hreq
    as (r0 & r2 & r3 & r4 & r5 & r6 & pkgs & H0 & H2 & H3 & Hp & H4 & H5 & H6 & H7).
  rewrite (add_reference_numbers_none _ _ Hrefs) in H4. injection H4 as <-.
  unfold shipment_entry.
  rewrite !(add_field_read_other _ _ _ _ _ _ _ H7) by reflexivity.
  rewrite !(add_field_read_other _ _ _ _ _ _ _ H6) by reflexivity.
  rewrite !(add_field_read_other _ _ _ _ _ _ _ H5) by reflexivity.
  rewrite !(add_location_id_read_other _ _ _ _ H3) by reflexivity.
  rewrite !(add_alternate_addr_read_other _ _ _ _ H2) by reflexivity.
  apply base_request_inv in H0
    as (? & ? & ? & ? & ? & ? & ? & ? & ? & ? & ? & ? & ? & ? & ? &
        _ & _ & _ & _ & _ & _ & _ & _ & _ & _ & _ & _ & _ & _ & _ & ->).
  by split.
Qed.

(** X10. A built document has one package block per package of
    [package_infos], and every block is a dictionary whose
    [PackageServiceOptions] is empty. *)
Theorem package_blocks_count (conn : UPSConnection) (a : ShipmentArgs)
  (req : value) :
  confirm_request conn a = OK req ->
  exists infos pkgs,
    package_info_list (package_infos a) = OK infos /\
    shipment_entry "Package" req = OK (VList pkgs) /\
    length pkgs = length infos /\
    forall i pkg, pkgs !! i = Some pkg ->
      getitem pkg "PackageServiceOptions" = OK (VDict ∅).
Proof.
  intros Hreq.
  destruct (confirm_request_packages _ _ _ Hreq)
    as (infos & pkgs & Hinfos & Hpkgs & Hp).
  exists infos, pkgs. repeat split; try done.
  - by apply mapM_length in Hpkgs.
  - intros i pkg Hi. clear Hp Hinfos.
    revert pkgs i Hpkgs Hi.
    induction infos as [|x xs IH]; simpl; intros pkgs i Hpkgs Hi.
    + injection Hpkgs as <-. done.
    + apply bind_OK in Hpkgs as (y & Hy & Hpkgs).
      apply bind_OK in Hpkgs as (ys & Hys & Hpkgs).
      injection Hpkgs as <-.
      destruct i as [|i]; simpl in Hi; [|by eapply IH].
      injection Hi as ->. clear IH Hys.
      unfold package_vals in Hy.
      apply bind_OK in Hy as (desc & _ & Hy).
      apply bind_OK in Hy as (type & _ & Hy).
      apply bind_OK in Hy as (weight_unit & _ & Hy).
      apply bind_OK in Hy as (weight & _ & Hy).
      apply bind_OK in Hy as (fill & _ & Hy).
      destruct (truthy fill).
      * apply bind_OK in Hy as (dunit & _ & Hy).
        apply bind_OK in Hy as (l & _ & Hy).
        apply bind_OK in Hy as (w & _ & Hy).
        apply bind_OK in Hy as (h & _ & Hy).
        by injection Hy as <-.
      * by injection Hy as <-.
Qed.

(** ** Package blocks and reference entries *)

(** X11. A package block builds exactly for a dictionary that has a
    [weight] and, unless its [fill_dimension] is false, a [length], a
    [width] and a [height]; the flag counts as true when it is absent. *)
Theorem package_vals_builds_iff (package_info : value) :
  is_ok (package_vals package_info) = true <->
  exists m,
    package_info = VDict m /\
    is_Some (m !! "weight") /\
    (truthy (default (VBool true) (m !! "fill_dimension")) = true ->
     is_Some (m !! "length") /\ is_Some (m !! "width") /\
     is_Some (m !! "height")).
Proof.
  split.
  - destruct package_info as [| | | | | | |m]; try discriminate.
    unfold package_vals. rewrite !get_dict, !getitem_dict.
    cbn [mbind result_bind]. intros H. exists m. split; [done|].
    destruct (m !! "weight"); cbn [mbind result_bind] in H; [|done].
    split; [by eexists|]. intros Hflag. rewrite Hflag in H.
    destruct (m !! "length"); cbn [mbind result_bind] in H; [|done].
    destruct (m !! "width"); cbn [mbind result_bind] in H; [|done].
    destruct (m !! "height"); cbn [mbind result_bind] in H; [|done].
    repeat split; by eexists.
  - intros (m & -> & [w Hw] & Hdims).
    unfold package_vals. rewrite !get_dict, !getitem_dict. rewrite Hw.
    cbn [mbind result_bind].
    destruct (truthy (default (VBool true) (m !! "fill_dimension"))); [|done].
    destruct (Hdims eq_refl) as ([l Hl] & [wd Hwd] & [h Hh]).
    by rewrite Hl, Hwd, Hh.
Qed.

(** X12. What is missing is reported by key, the weight first: a
    dictionary without [weight] raises [KeyError] on it; with a weight
    and a flag that is true or absent, the first of [length], [width],
    [height] that is missing is the key of the error; and a package
    that is no dictionary raises [AttributeError]. *)
Theorem package_vals_errors (package_info : value) :
  (isinstance_dict package_info = false ->
   package_vals package_info = Err AttributeError) /\
  (forall m, package_info = VDict m ->
     m !! "weight" = None ->
     package_vals package_info = Err (KeyError (VStr "weight"))) /\
  (forall m, package_info = VDict m ->
     is_Some (m !! "weight") ->
     truthy (default (VBool true) (m !! "fill_dimension")) = true ->
     (m !! "length" = None ->
      package_vals package_info = Err (KeyError (VStr "length"))) /\
     (is_Some (m !! "length") -> m !! "width" = None ->
      package_vals package_info = Err (KeyError (VStr "width"))) /\
     (is_Some (m !! "length") -> is_Some (m !! "width") ->
      m !! "height" = None ->
      package_vals package_info = Err (KeyError (VStr "height")))).
Proof.
  split; [|split].
  - by destruct package_info.
  - intros m -> Hw. unfold package_vals. rewrite !get_dict, !getitem_dict.
    by rewrite Hw.
  - intros m -> [w Hw] Hflag.
    unfold package_vals. rewrite !get_dict, !getitem_dict. rewrite Hw.
    cbn [mbind result_bind]. rewrite Hflag.
    split; [|split].
    + by intros ->.
    + intros [l ->] ->. reflexivity.
    + intros [l ->] [wd ->] ->. reflexivity.
Qed.

(** X13. With a true flag, or none, the block of a package holds its
    dimensions: the three sizes and the unit, "IN" unless the package
    names another. *)
Theorem dimensions_block (m : gmap string value) (v : value) :
  truthy (default (VBool true) (m !! "fill_dimension")) = true ->
  package_vals (VDict m) = OK v ->
  exists l w h,
    m !! "length" = Some l /\ m !! "width" = Some w /\ m !! "height" = Some h /\
    getitem v "Dimensions" =
      OK (VDict {[
        "UnitOfMeasurement" :=
          VDict {[ "Code" := default (VStr "IN") (m !! "dimensions_unit") ]};
        "Length" := l; "Width" := w; "Height" := h ]}).
Proof.
  intros Hflag. unfold package_vals. rewrite !get_dict, !getitem_dict.
  destruct (m !! "weight"); cbn [mbind result_bind]; [|done].
  rewrite Hflag.
  destruct (m !! "length") as [l|]; cbn [mbind result_bind]; [|done].
  destruct (m !! "width") as [w|]; cbn [mbind result_bind]; [|done].
  destruct (m !! "height") as [h|]; cbn [mbind result_bind]; [|done].
  intros [= <-]. exists l, w, h. by repeat split.
Qed.

(** X14. The list of reference entries has one entry per reference, in
    order; the entry of the reference at position [i] (from 0) that does
    not unpack into a pair has the code [start + i] and the reference as
    its value, and the entry of one that unpacks into [(c, n)] has the
    code [c] and the value [n]. *)
Theorem reference_entries_lookup (start : Z) (l : list value) :
  length (reference_entries start l) = length l /\
  forall (i : nat) x, l !! i = Some x ->
    reference_entries start l !! i =
    Some (match unpack_pair x with
          | Some (c, n) => VDict {[ "Code" := c; "Value" := n ]}
          | None => VDict {[ "Code" := VInt (start + Z.of_nat i); "Value" := x ]}
          end).
Proof.
  split.
  - revert start. induction l as [|x xs IH]; intros start; simpl; [done|].
    destruct (default _ _). simpl. by rewrite IH.
  - revert start. induction l as [|x xs IH]; intros start i y Hi; [done|].
    destruct i as [|i]; simpl in *.
    + injection Hi as ->.
      destruct (unpack_pair y) as [[c n]|]; simpl; [done|].
      by rewrite Z.add_0_r.
    + destruct (default _ _). simpl. rewrite (IH _ _ _ Hi).
      by replace (start + 1 + Z.of_nat i)%Z with (start + Z.pos (Pos.of_succ_nat i))%Z
        by lia.
Qed.

(** X15. A reference given as a string of exactly two characters is
    taken apart: the first character becomes the code and the second the
    value; a string of any other length stays whole under the code of
    its position. *)
Theorem two_character_reference (start : Z) (s : string) :
  reference_entries start [VStr s] =
  [ match s with
    | String c1 (String c2 EmptyString) =>
        VDict {[ "Code" := VStr (String c1 EmptyString);
                 "Value" := VStr (String c2 EmptyString) ]}
    | _ => VDict {[ "Code" := VInt start; "Value" := VStr s ]}
    end ].
Proof.
  destruct s as [|c1 [|c2 [|c3 s]]]; reflexivity.
Qed.

(** X25. A document is built only from addresses that are dictionaries
    with the keys it reads by subscript: name, phone, street, city,
    state, country and postal code for the shipper, and the same without
    the phone for the recipient, whose phone number is [None] when it is
    missing; an e-mail address that is missing is the empty string. *)
Theorem required_address_fields (conn : UPSConnection) (a : ShipmentArgs)
  (req : value) :
  confirm_request conn a = OK req ->
  exists f t,
    from_addr a = VDict f /\ to_addr a = VDict t /\
    Forall (fun k => is_Some (f !! k))
      ["name"; "phone"; "address1"; "city"; "state"; "country"; "postal_code"] /\
    Forall (fun k => is_Some (t !! k))
      ["name"; "address1"; "city"; "state"; "country"; "postal_code"] /\
    getitem_path req (shipment_path ++ ["ShipTo"; "PhoneNumber"])
      = OK (default VNone (t !! "phone")) /\
    getitem_path req (shipment_path ++ ["Shipper"; "EMailAddress"])
      = OK (default (VStr "") (f !! "email")) /\
    getitem_path req (shipment_path ++ ["ShipTo"; "EMailAddress"])
      = OK (default (VStr "") (t !! "email")).
Proof.
  intros Hreq.
  destruct (confirm_request_unassigned _ _ _
      (shipment_path ++ ["ShipTo"; "PhoneNumber"]) Hreq eq_refl)
      as (r0 & H0 & ->).
  destruct (confirm_request_unassigned _ _ _
      (shipment_path ++ ["Shipper"; "EMailAddress"]) Hreq eq_refl)
      as (r0' & H0' & ->).
  destruct (confirm_request_unassigned _ _ _
      (shipment_path ++ ["ShipTo"; "EMailAddress"]) Hreq eq_refl)
      as (r0'' & H0'' & ->).
  assert (r0' = r0) as -> by congruence.
  assert (r0'' = r0) as -> by congruence.
  clear H0' H0''.
  apply base_request_inv in H0
    as (? & ? & from_name & ? & from_phone & from_email & from_address &
        to_name & ? & to_phone & to_email & to_address & ? & ? & ? &
        _ & _ & Hfn & _ & Hfp & Hfe & Hfaddr & Htn & _ & Htp & Hte & Htaddr &
        _ & _ & _ & ->).
  apply address_block_inv in Hfaddr
    as (? & ? & ? & ? & ? & Hf1 & Hf2 & Hf3 & Hf4 & Hf5 & _).
  apply address_block_inv in Htaddr
    as (? & ? & ? & ? & ? & Ht1 & Ht2 & Ht3 & Ht4 & Ht5 & _).
  apply getitem_OK in Hfn as (f & Hf & Hfn).
  apply getitem_OK in Htn as (t & Ht & Htn).
  rewrite Hf in *. rewrite Ht in *.
  exists f, t. split; [done|]. split; [done|].
  rewrite get_dict in Hfe, Htp, Hte.
  injection Hfe as <-. injection Htp as <-. injection Hte as <-.
  split; [|split; [|by repeat split]].
  - repeat (apply Forall_cons; split;
      [match goal with
       | H : getitem (VDict f) ?k = OK _ |- is_Some (f !! ?k) =>
           apply getitem_OK in H as (? & [= <-] & H); by eexists
       | |- _ => by eexists
       end|]).
    constructor.
  - repeat (apply Forall_cons; split;
      [match goal with
       | H : getitem (VDict t) ?k = OK _ |- is_Some (t !! ?k) =>
           apply getitem_OK in H as (? & [= <-] & H); by eexists
       | |- _ => by eexists
       end|]).
    constructor.
Qed.

(** X26. A document built with reference numbers is never a domestic
    one: the two countries are not both "US", the shipment block holds
    the caller's description, and its [ReferenceNumber] is the list of
    entries of the references, one per reference. *)
Theorem reference_numbers_in_document (conn : UPSConnection) (a : ShipmentArgs)
  (req : value) :
  confirm_request conn a = OK req ->
  truthy (reference_numbers a) = true ->
  exists from_country to_country items,
    getitem (from_addr a) "country" = OK from_country /\
    getitem (to_addr a) "country" = OK to_country /\
    eq_str from_country "US" && eq_str to_country "US" = false /\
    py_iter (reference_numbers a) = OK items /\
    shipment_entry "Description" req = OK (description a) /\
    shipment_entry "ReferenceNumber" req = OK (VList (reference_entries 1 items)) /\
    length (reference_entries 1 items) = length items.
Proof.
  intros Hreq Hrefs.
  destruct (international_reference_numbers _ _ _ Hrefs Hreq)
    as (items & Hitems & HUS & Hdesc & Href).
  apply confirm_request_inv in Hreq as (r0 & ? & ? & ? & ? & ? & H0 & _).
  apply base_request_inv in H0
    as (? & ? & ? & ? & ? & ? & from_address & ? & ? & ? & ? & to_address &
        ? & ? & ? &
        _ & _ & _ & _ & _ & _ & Hfaddr & _ & _ & _ & _ & Htaddr & _).
  apply address_block_inv in Hfaddr
    as (? & ? & ? & from_country & ? & _ & _ & _ & Hfc & _).
  apply address_block_inv in Htaddr
    as (? & ? & ? & to_country & ? & _ & _ & _ & Htc & _).
  exists from_country, to_country, items. repeat split; try done.
  - unfold both_US in HUS. rewrite Hfc in HUS. cbn [mbind result_bind] in HUS.
    destruct (eq_str from_country "US"); [|done].
    rewrite Htc in HUS. cbn [mbind result_bind] in HUS. by injection HUS as ->.
  - clear. generalize 1%Z. induction items as [|x xs IH]; intros z; [done|].
    simpl. destruct (default _ _). simpl. by rewrite IH.
Qed.

Section MoreProperties.
Context `{Lib : Library}.

(** ** The transport *)

(** The URL a request goes to. *)
Lemma transmit_request_sent (conn : UPSConnection) (url_action : string)
  (ups_request : value) (log : list sent) (u u' : string) :
  production_urls !! url_action = Some (VStr u) ->
  test_urls !! url_action = Some (VStr u') ->
  (_transmit_request conn url_action ups_request log).2 =
    log ++ [Sent url_action (if debug conn then u' else u) ups_request
              (_generate_xml conn url_action ups_request)].
Proof.
  intros Hu Hu'. unfold _transmit_request, dict_getitem. simpl hashable.
  cbv iota. rewrite Hu, Hu'.
  cbv [mbind io_bind lift mret io_ret send].
  destruct (debug conn); simpl url_string.
  - destruct (urlopen _ _); [|done]. by destruct (dict_response _).
  - by destruct (urlopen _ _).
Qed.

(** X16. A request under an operation of the URL tables goes out once,
    to the production URL of the operation, or to its test URL when the
    connection is in debug mode; under any other operation nothing is
    sent and the call raises [KeyError] on the operation. *)
Theorem transmit_request_url (conn : UPSConnection) (url_action : string)
  (ups_request : value) (log : list sent) :
  (forall u u',
     production_urls !! url_action = Some (VStr u) ->
     test_urls !! url_action = Some (VStr u') ->
     (_transmit_request conn url_action ups_request log).2 =
       log ++ [Sent url_action (if debug conn then u' else u) ups_request
                 (_generate_xml conn url_action ups_request)]) /\
  (production_urls !! url_action = None ->
   _transmit_request conn url_action ups_request log =
     (Err (KeyError (VStr url_action)), log)).
Proof.
  split.
  - intros u u' Hu Hu'. by apply transmit_request_sent.
  - intros Hnone. unfold _transmit_request, dict_getitem. simpl hashable.
    cbv iota. by rewrite Hnone.
Qed.

(** X17. In debug mode a response that cannot be parsed makes the
    transport itself raise, after the request went out; outside debug
    mode the transport returns any response it received, parsed or not. *)
Theorem transmit_request_result (conn : UPSConnection) (url_action : string)
  (ups_request : value) (log : list sent) (u u' body : string) :
  production_urls !! url_action = Some (VStr u) ->
  test_urls !! url_action = Some (VStr u') ->
  urlopen (if debug conn then u' else u)
    (_generate_xml conn url_action ups_request) = OK body ->
  (_transmit_request conn url_action ups_request log).1 =
    if debug conn
    then match xmltodict_parse body with
         | OK _ => OK {| response := body |}
         | Err e => Err e
         end
    else OK {| response := body |}.
Proof.
  intros Hu Hu' Hopen. unfold _transmit_request, dict_getitem. simpl hashable.
  cbv iota. rewrite Hu, Hu'.
  cbv [mbind io_bind lift mret io_ret send].
  destruct (debug conn); simpl url_string; rewrite Hopen; [|done].
  unfold dict_response, xml_response. simpl.
  by destruct (xmltodict_parse body).
Qed.

(** X18. Creating a [TrackingInfo] sends exactly one request, whatever
    comes back: under [track], to the tracking URL of the mode of the
    connection, with a document that asks for the activity of the given
    tracking number; the object that results keeps that number. *)
Theorem TrackingInfo_init_request (conn : UPSConnection) (number : value)
  (log : list sent) :
  exists doc body,
    (TrackingInfo_init conn number log).2 =
      log ++ [Sent "track"
                (if debug conn then "https://wwwcie.ups.com/ups.app/xml/Track"
                 else "https://onlinetools.ups.com/ups.app/xml/Track")
                doc body] /\
    getitem_path doc ["TrackRequest"; "TrackingNumber"] = OK number /\
    getitem_path doc ["TrackRequest"; "Request"; "RequestOption"]
      = OK (VStr "activity") /\
    forall self, (TrackingInfo_init conn number log).1 = OK self ->
                 tracking_number self = number.
Proof.
  unfold TrackingInfo_init.
  set (doc := VDict _).
  pose proof (transmit_request_sent conn "track" doc log _ _ eq_refl eq_refl)
    as Hurl.
  eexists doc, _. split; [|split; [done|split; [done|]]].
  - unfold mbind at 1. unfold io_bind at 1.
    destruct (_transmit_request conn "track" doc log) as [[r|e] log1] eqn:E;
      simpl in Hurl; rewrite Hurl; reflexivity.
  - intros self. unfold mbind at 1. unfold io_bind at 1.
    destruct (_transmit_request conn "track" doc log) as [[r|e] log1];
      [|discriminate].
    simpl. by intros [= <-].
Qed.

(** ** Tracking accessors *)

(** X19. Over a list of activities that all carry a status code,
    [in_transit] is true exactly when one of them has the code "I". *)
Theorem in_transit_iff (self : TrackingInfo) (acts : list value) :
  shipment_activities self = OK (VList acts) ->
  Forall (fun x => is_ok (status_code_is "I" x) = true) acts ->
  exists b, in_transit self = OK b /\
    (b = true <-> exists x, x ∈ acts /\ status_code_is "I" x = OK true).
Proof.
  intros Hacts Hcodes. unfold in_transit. rewrite Hacts. simpl.
  assert (exists l, filterM (status_code_is "I") acts = OK l /\
            (forall x, x ∈ l <-> x ∈ acts /\ status_code_is "I" x = OK true))
    as (l & Hl & Hmem).
  { clear Hacts. induction Hcodes as [|y ys Hy _ (l & Hl & IH)]; simpl.
    - exists []. split; [done|]. intros x. split; [by intros ?%elem_of_nil|].
      by intros [?%elem_of_nil _].
    - destruct (status_code_is "I" y) as [b|] eqn:E; [|done]. simpl.
      rewrite Hl. simpl. eexists. split; [done|]. intros x.
      destruct b.
      + rewrite !elem_of_cons, IH. split.
        * intros [->|[? ?]]; [by split; [left|] | by split; [right|]].
        * intros [[->|?] ?]; [by left | by right].
      + rewrite elem_of_cons, IH. split.
        * intros [? ?]. by split; [right|].
        * intros [[->|?] ?]; [congruence | done]. }
  rewrite Hl. simpl. eexists. split; [done|].
  destruct l as [|x l']; simpl.
  - split; [done|]. intros (x & Hx). apply Hmem in Hx. by apply elem_of_nil in Hx.
  - split; [|done]. intros _. exists x. apply Hmem. apply elem_of_cons. by left.
Qed.

(** X20. A tracking response without the activity path is not taken
    for an empty history: the three accessors raise the error of the
    missing subscript. *)
Theorem tracking_missing_path (self : TrackingInfo) (d : value) (e : exn) :
  dict_response (result_ self) = OK d ->
  getitem_path d ["TrackResponse"; "Shipment"; "Package"; "Activity"] = Err e ->
  shipment_activities self = Err e /\
  delivered self = Err e /\
  in_transit self = Err e.
Proof.
  intros Hd He.
  assert (Hacts : shipment_activities self = Err e).
  { unfold shipment_activities. rewrite Hd. cbn [mbind result_bind].
    by rewrite He. }
  unfold delivered, in_transit. by rewrite Hacts.
Qed.

(** ** The construction of a shipment *)

Lemma Shipment_init_confirm_failed (conn : UPSConnection) (a : ShipmentArgs)
  (req : value) (e : exn) (log log1 : list sent) :
  confirm_request conn a = OK req ->
  _transmit_request conn "ship_confirm" req log = (Err e, log1) ->
  Shipment_init conn a log = (Err e, log1).
Proof.
  intros Hreq Hsent. unfold Shipment_init.
  unfold mbind at 1. unfold io_bind at 1. unfold lift at 1. rewrite Hreq.
  unfold mbind at 1. unfold io_bind at 1. by rewrite Hsent.
Qed.

(** X21. Whatever its arguments and whatever the carrier answers, a
    construction sends nothing, or the confirm request alone, or the
    confirm request followed by one accept request that carries the
    digest read from the answer to the first; it sends nothing else, and
    never an accept request without a confirm request before it. *)
Theorem Shipment_init_requests (conn : UPSConnection) (a : ShipmentArgs)
  (log : list sent) :
  (Shipment_init conn a log).2 = log \/
  (exists req url body,
     confirm_request conn a = OK req /\
     (Shipment_init conn a log).2 = log ++ [Sent "ship_confirm" url req body]) \/
  (exists req u1 b1 r d D u2 b2,
     confirm_request conn a = OK req /\
     (_transmit_request conn "ship_confirm" req log).1 = OK r /\
     dict_response r = OK d /\
     getitem_path d ["ShipmentConfirmResponse"; "ShipmentDigest"] = OK D /\
     (Shipment_init conn a log).2 =
       log ++ [Sent "ship_confirm" u1 req b1;
               Sent "ship_accept" u2 (accept_request D) b2]).
Proof.
  destruct (confirm_request conn a) as [req|e] eqn:Hreq.
  2: { left. by rewrite (Shipment_init_not_built _ _ _ _ Hreq). }
  destruct (transmit_request_log conn "ship_confirm" req log) as [u1 Hlog1].
  { apply elem_of_cons. right. apply elem_of_cons. by left. }
  destruct (_transmit_request conn "ship_confirm" req log) as [[r|e] log1] eqn:Hsent;
    simpl in Hlog1; subst log1.
  2: { right. left. exists req, u1, (_generate_xml conn "ship_confirm" req). split; [done|].
       by rewrite (Shipment_init_confirm_failed _ _ _ _ _ _ Hreq Hsent). }
  rewrite (Shipment_init_confirmed _ _ _ _ _ _ Hreq Hsent).
  destruct (lacks_digest r) as [[|]|e].
  - right. left. exists req, u1, (_generate_xml conn "ship_confirm" req). split; [done|]. by destruct (_ ≫= _).
  - destruct (dict_response r) as [d|e] eqn:Hd; cbn [mbind result_bind].
    2: { right. left. by exists req, u1, (_generate_xml conn "ship_confirm" req). }
    destruct (getitem_path d _) as [D|e] eqn:HD.
    2: { right. left. by exists req, u1, (_generate_xml conn "ship_confirm" req). }
    destruct (transmit_request_log conn "ship_accept" (accept_request D)
                (log ++ [Sent "ship_confirm" u1 req
                           (_generate_xml conn "ship_confirm" req)]))
      as [u2 Hlog2].
    { do 2 (apply elem_of_cons; right). apply elem_of_cons. by left. }
    right. right. exists req, u1, (_generate_xml conn "ship_confirm" req), r, d, D, u2,
      (_generate_xml conn "ship_accept" (accept_request D)).
    split; [done|]. split; [by rewrite Hsent|]. split; [done|]. split; [done|].
    destruct (_transmit_request conn "ship_accept" _ _) as [[r2|e] log2];
      simpl in *; rewrite Hlog2; by rewrite <- app_assoc.
  - right. left. by exists req, u1, (_generate_xml conn "ship_confirm" req).
Qed.

(** X22. A shipment exists only after both requests: when the
    construction returns a shipment, the document was built (so no
    delivery confirmation was asked for), exactly the confirm and the
    accept request were sent, in this order, the accept request carries
    the digest of the confirm result the shipment keeps, and the
    shipment remembers the [file_format] asked for. *)
Theorem Shipment_init_success (conn : UPSConnection) (a : ShipmentArgs)
  (log log' : list sent) (self : Shipment) :
  Shipment_init conn a log = (OK self, log') ->
  exists req d D u1 b1 u2 b2,
    confirm_request conn a = OK req /\
    truthy (delivery_confirmation a) = false /\
    dict_response (confirm_result self) = OK d /\
    getitem_path d ["ShipmentConfirmResponse"; "ShipmentDigest"] = OK D /\
    log' = log ++ [Sent "ship_confirm" u1 req b1;
                   Sent "ship_accept" u2 (accept_request D) b2] /\
    self_file_format self = file_format a.
Proof.
  intros Hinit.
  destruct (confirm_request conn a) as [req|e] eqn:Hreq.
  2: { by rewrite (Shipment_init_not_built _ _ _ _ Hreq) in Hinit. }
  destruct (transmit_request_log conn "ship_confirm" req log) as [u1 Hlog1].
  { apply elem_of_cons. right. apply elem_of_cons. by left. }
  destruct (_transmit_request conn "ship_confirm" req log) as [[r|e] log1] eqn:Hsent;
    simpl in Hlog1; subst log1.
  2: { by rewrite (Shipment_init_confirm_failed _ _ _ _ _ _ Hreq Hsent) in Hinit. }
  rewrite (Shipment_init_confirmed _ _ _ _ _ _ Hreq Hsent) in Hinit.
  destruct (lacks_digest r) as [[|]|e]; [by destruct (_ ≫= _)| |done].
  destruct (dict_response r) as [d|e] eqn:Hd; cbn [mbind result_bind] in Hinit;
    [|done].
  destruct (getitem_path d _) as [D|e] eqn:HD; [|done].
  destruct (transmit_request_log conn "ship_accept" (accept_request D)
              (log ++ [Sent "ship_confirm" u1 req
                         (_generate_xml conn "ship_confirm" req)]))
    as [u2 Hlog2].
  { do 2 (apply elem_of_cons; right). apply elem_of_cons. by left. }
  destruct (_transmit_request conn "ship_accept" _ _) as [[r2|e] log2];
    [|done].
  simpl in Hlog2. injection Hinit as <- <-.
  apply confirm_request_inv in Hreq as Hsteps.
  destruct Hsteps as (? & ? & ? & ? & ? & ? & _ & _ & Hdc & _).
  exists req, d, D, u1, (_generate_xml conn "ship_confirm" req), u2,
    (_generate_xml conn "ship_accept" (accept_request D)). repeat split; try done.
  rewrite Hlog2. by rewrite <- app_assoc.
Qed.

(** ** Results of a shipment *)

(** X23. When the accept response holds a list of package results that
    all convert, [tracking_numbers] has one number per package result,
    in the order of the response: the [TrackingNumber] of each. *)
Theorem tracking_numbers_in_order (self : Shipment) (d : value)
  (results : list value) :
  dict_response (accept_result self) = OK d ->
  getitem_path d package_results_path = OK (VList results) ->
  Forall (fun p => is_ok (_convert_pkg_result self p) = true) results ->
  exists numbers,
    tracking_numbers self = OK numbers /\
    length numbers = length results /\
    forall i p, results !! i = Some p ->
      exists n, numbers !! i = Some n /\ getitem p "TrackingNumber" = OK n.
Proof.
  intros Hd Hp Hconv. unfold tracking_numbers, package_results.
  rewrite Hd. cbn [mbind result_bind]. rewrite Hp. cbn [mbind result_bind].
  simpl isinstance_dict. cbv iota. simpl py_iter. cbn [mbind result_bind].
  clear Hd Hp. induction Hconv as [|p ps Hp _ (numbers & Hn & Hlen & Hnth)].
  - exists []. by repeat split.
  - simpl. destruct (_convert_pkg_result self p) as [pkg|] eqn:Hpkg; [|done].
    cbn [mbind result_bind].
    destruct (mapM (_convert_pkg_result self) ps) as [pkgs|];
      cbn [mbind result_bind] in *; [|done].
    cbn [mapM mbind result_bind].
    unfold _convert_pkg_result in Hpkg.
    apply bind_OK in Hpkg as (label & _ & Hpkg).
    apply bind_OK in Hpkg as (format & _ & Hpkg).
    apply bind_OK in Hpkg as (label_format & _ & Hpkg).
    apply bind_OK in Hpkg as (n & Htn & Hpkg).
    injection Hpkg as <-.
    change (getitem (VDict _) "tracking_number") with (OK n).
    cbn [mbind result_bind]. rewrite Hn. cbn [mbind result_bind].
    exists (n :: numbers). split; [done|]. split; [simpl; by rewrite Hlen|].
    intros [|i] q Hq; simpl in *.
    + injection Hq as <-. eauto.
    + eauto.
Qed.

(** X24. [get_label] serves a single package result only: when the
    accept response holds a list of package results, even of one, it
    raises [TypeError]. *)
Theorem get_label_of_list (self : Shipment) (d : value) (results : list value) :
  dict_response (accept_result self) = OK d ->
  getitem_path d package_results_path = OK (VList results) ->
  get_label self = Err TypeError.
Proof.
  intros Hd Hp. unfold get_label. rewrite Hd. cbn [mbind result_bind].
  by rewrite Hp.
Qed.

Lemma Shipment_init_file_format (conn : UPSConnection) (a : ShipmentArgs)
  (log log' : list sent) (self : Shipment) :
  Shipment_init conn a log = (OK self, log') ->
  self_file_format self = file_format a.
Proof.
  intros Hinit.
  destruct (confirm_request conn a) as [req|e] eqn:Hreq.
  2: { by rewrite (Shipment_init_not_built _ _ _ _ Hreq) in Hinit. }
  destruct (_transmit_request conn "ship_confirm" req log) as [[r|e] log1] eqn:Hsent.
  2: { by rewrite (Shipment_init_confirm_failed _ _ _ _ _ _ Hreq Hsent) in Hinit. }
  rewrite (Shipment_init_confirmed _ _ _ _ _ _ Hreq Hsent) in Hinit.
  destruct (lacks_digest r) as [[|]|e]; [by destruct (_ ≫= _)| |done].
  destruct (_ ≫= _) as [D|e]; [|done].
  destruct (_transmit_request conn "ship_accept" _ _) as [[r2|e] log2]; [|done].
  by injection Hinit as <- <-.
Qed.

(** X27. The package result of a shipment that was constructed reports,
    as its label format, the code the carrier declared or, when the
    carrier declared none, the [file_format] the shipment was asked
    with. *)
Theorem package_results_of_shipment (conn : UPSConnection) (a : ShipmentArgs)
  (log log' : list sent) (self : Shipment) (d : value)
  (p li fm : gmap string value) (g tn : value) :
  Shipment_init conn a log = (OK self, log') ->
  dict_response (accept_result self) = OK d ->
  getitem_path d package_results_path = OK (VDict p) ->
  p !! "LabelImage" = Some (VDict li) ->
  li !! "GraphicImage" = Some g ->
  li !! "LabelImageFormat" = Some (VDict fm) ->
  p !! "TrackingNumber" = Some tn ->
  package_results self =
    OK [VDict {[ "label" := g;
                 "label_format" := default (file_format a) (fm !! "Code");
                 "tracking_number" := tn ]}].
Proof.
  intros Hinit Hd Hp Hli Hg Hfm Htn.
  apply Shipment_init_file_format in Hinit.
  unfold package_results. rewrite Hd. cbn [mbind result_bind].
  rewrite Hp. cbn [mbind result_bind]. simpl isinstance_dict. cbv iota.
  cbn [mbind result_bind mapM]. unfold _convert_pkg_result.
  cbn [getitem_path]. rewrite !getitem_dict, Hli. cbn [mbind result_bind].
  rewrite !getitem_dict, Hg, Hfm. cbn [mbind result_bind].
  rewrite get_dict, Htn, Hinit. reflexivity.
Qed.

(** X28. Every request of a construction goes to the URL its operation
    has in the table of the connection's mode: in debug mode no request
    reaches a production URL, and outside it none reaches a test URL. *)
Theorem Shipment_init_urls (conn : UPSConnection) (a : ShipmentArgs)
  (log : list sent) :
  exists requests,
    (Shipment_init conn a log).2 = log ++ requests /\
    Forall (fun c =>
      (if debug conn then test_urls else production_urls) !! sent_action c
        = Some (VStr (sent_url c))) requests.
Proof.
  destruct (confirm_request conn a) as [req|e] eqn:Hreq.
  2: { exists []. rewrite (Shipment_init_not_built _ _ _ _ Hreq).
       split; [by rewrite app_nil_r | constructor]. }
  pose proof (transmit_request_sent conn "ship_confirm" req log _ _
                eq_refl eq_refl) as Hlog1.
  assert (Hurl1 : (if debug conn then test_urls else production_urls)
            !! "ship_confirm" = Some (VStr
              (if debug conn
               then "https://wwwcie.ups.com/ups.app/xml/ShipConfirm"
               else "https://onlinetools.ups.com/ups.app/xml/ShipConfirm")))
    by (by destruct (debug conn)).
  assert (Hurl2 : (if debug conn then test_urls else production_urls)
            !! "ship_accept" = Some (VStr
              (if debug conn
               then "https://wwwcie.ups.com/ups.app/xml/ShipAccept"
               else "https://onlinetools.ups.com/ups.app/xml/ShipAccept")))
    by (by destruct (debug conn)).
  destruct (_transmit_request conn "ship_confirm" req log) as [[r|e] log1] eqn:Hsent;
    simpl in Hlog1; subst log1.
  2: { rewrite (Shipment_init_confirm_failed _ _ _ _ _ _ Hreq Hsent).
       eexists. split; [done|]. by repeat constructor. }
  rewrite (Shipment_init_confirmed _ _ _ _ _ _ Hreq Hsent).
  destruct (lacks_digest r) as [[|]|e].
  - eexists. split; [by destruct (_ ≫= _)|]. by repeat constructor.
  - destruct (_ ≫= _) as [D|e].
    2: { eexists. split; [done|]. by repeat constructor. }
    pose proof (transmit_request_sent conn "ship_accept" (accept_request D)
                  (log ++ [Sent "ship_confirm"
                     (if debug conn
                      then "https://wwwcie.ups.com/ups.app/xml/ShipConfirm"
                      else "https://onlinetools.ups.com/ups.app/xml/ShipConfirm")
                     req (_generate_xml conn "ship_confirm" req)])
                  _ _ eq_refl eq_refl) as Hlog2.
    eexists [_; _]. split.
    + destruct (_transmit_request conn "ship_accept" _ _) as [[r2|e] log2];
        simpl in *; rewrite Hlog2; by rewrite <- app_assoc.
    + by repeat constructor.
  - eexists. split; [done|]. by repeat constructor.
Qed.

End MoreProperties.

(** ** Instances of the further properties *)

Lemma service_block_witness :
  shipment_entry "Service" req_full =
  OK (VDict {[ "Code" := VStr "02"; "Description" := VNone ]}).
Proof.
  destruct (service_block conn0 args_full req_full eq_refl) as (_ & Hstring & _).
  apply (Hstring "2dayair"); [reflexivity | discriminate].
Defined.

Lemma shipper_account_witness :
  getitem_path req_full (shipment_path ++ ["Shipper"; "ShipperNumber"])
    = OK (VStr "A1B2C3") /\
  getitem_path req_full
    (shipment_path ++ ["PaymentInformation"; "Prepaid"; "BillShipper";
                       "AccountNumber"])
    = OK (VStr "A1B2C3").
Proof. apply (shipper_account conn0 args_full req_full). reflexivity. Defined.

Lemma label_specification_witness :
  getitem_path req_full ["ShipmentConfirmRequest"; "LabelSpecification"] =
  OK (VDict {[
    "LabelPrintMethod" := VDict {[ "Code" := VStr "ZPL" ]};
    "LabelStockSize" := VDict {[ "Width" := VStr "6"; "Height" := VStr "4" ]};
    "HTTPUserAgent" := VStr "Mozilla/4.5";
    "LabelImageFormat" := VDict {[ "Code" := VStr "GIF" ]} ]}).
Proof. apply (label_specification conn0 args_full req_full). reflexivity. Defined.

Lemma attention_names_witness :
  getitem_path req_full (shipment_path ++ ["Shipper"; "AttentionName"])
    = OK (VStr "ACME") /\
  getitem_path req_full (shipment_path ++ ["ShipTo"; "AttentionName"])
    = OK (VStr "Alice").
Proof.
  destruct (attention_names conn0 args_full req_full eq_refl)
    as (f & t & from_name & to_name & Hf & Ht & Hfn & Htn & _ & Hfrom & Hto).
  injection Hf as <-. injection Ht as <-.
  injection Hfn as <-. injection Htn as <-.
  split; [exact Hfrom | exact Hto].
Defined.

Lemma company_name_witness :
  getitem_path req_full (shipment_path ++ ["ShipTo"; "CompanyName"])
    = OK (VStr "Initech").
Proof.
  destruct (company_name conn0 args_full req_full eq_refl)
    as (t & to_name & Ht & Htn & Hcompany).
  injection Ht as <-. exact Hcompany.
Defined.

Lemma second_address_lines_witness :
  getitem_path req_full (shipment_path ++ ["Shipper"; "Address"; "AddressLine2"])
    = Err (KeyError (VStr "AddressLine2")) /\
  getitem_path req_full (shipment_path ++ ["ShipTo"; "Address"; "AddressLine2"])
    = OK (VStr "Suite 5").
Proof.
  destruct (second_address_lines conn0 args_full req_full eq_refl)
    as (f & t & Hf & Ht & Hfrom & Hto).
  injection Hf as <-. injection Ht as <-.
  split; [exact Hfrom | exact Hto].
Defined.

Lemma location_id_entries_witness :
  getitem_path req_full (shipment_path ++ ["ShipTo"; "LocationID"])
    = OK (VStr "LOC9") /\
  shipment_entry "ShipmentIndicationType" req_full
    = OK (VDict {[ "Code" := VStr "01" ]}).
Proof.
  destruct (location_id_entries conn0 args_full req_full eq_refl) as (t & Ht & H).
  injection Ht as <-. exact H.
Defined.

Lemma alternate_delivery_address_witness :
  exists address,
    address_block (addr "Depot" "CA") = OK address /\
    shipment_entry "AlternateDeliveryAddress" req_full =
      OK (VDict {[ "Name" := VStr "Depot"; "AttentionName" := VStr "Depot";
                   "Address" := address ]}).
Proof.
  pose proof (alternate_delivery_address conn0 args_full req_full eq_refl) as H.
  assert (E : truthy (alternate_addr args_full) = true) by (vm_compute; reflexivity).
  rewrite E in H.
  destruct H as (name & attn & address & Hname & Hattn & Haddress & H).
  injection Hname as <-. injection Hattn as <-.
  exists address. split; [exact Haddress | exact H].
Defined.

Lemma no_reference_numbers_no_description_witness :
  shipment_entry "Description" req_plain = Err (KeyError (VStr "Description")) /\
  shipment_entry "ReferenceNumber" req_plain
    = Err (KeyError (VStr "ReferenceNumber")).
Proof.
  apply (no_reference_numbers_no_description conn0 args_plain req_plain);
    reflexivity.
Defined.

Lemma package_blocks_count_witness :
  exists pkgs,
    shipment_entry "Package" req_full = OK (VList pkgs) /\ length pkgs = 2%nat.
Proof.
  destruct (package_blocks_count conn0 args_full req_full eq_refl)
    as (infos & pkgs & Hinfos & Hp & Hlen & _).
  injection Hinfos as <-. exists pkgs. split; [exact Hp | exact Hlen].
Defined.

Lemma dimensions_block_witness :
  exists v,
    package_vals pkg_dims = OK v /\
    getitem_path v ["Dimensions"; "UnitOfMeasurement"; "Code"] = OK (VStr "IN").
Proof.
  destruct pkg_dims as [| | | | | | |m] eqn:E; try discriminate.
  destruct (package_vals (VDict m)) as [v|] eqn:Hv; [|by rewrite <- E in Hv].
  destruct (dimensions_block m v) as (l & w & h & _ & _ & _ & Hdims).
  - injection E as <-. reflexivity.
  - exact Hv.
  - exists v. split; [done|]. simpl. rewrite Hdims. simpl.
    injection E as <-. reflexivity.
Defined.

Lemma transmit_request_result_witness :
  (_transmit_request (Lib := lib_accepting) conn_debug "track" VNone []).1 =
    Err ValueError /\
  (_transmit_request (Lib := lib_accepting) conn0 "track" VNone []).1 =
    OK {| response := "https://onlinetools.ups.com/ups.app/xml/Track" |}.
Proof.
  split.
  - apply (transmit_request_result (Lib := lib_accepting) conn_debug "track"
             VNone [] "https://onlinetools.ups.com/ups.app/xml/Track"
             "https://wwwcie.ups.com/ups.app/xml/Track"
             "https://wwwcie.ups.com/ups.app/xml/Track"); reflexivity.
  - apply (transmit_request_result (Lib := lib_accepting) conn0 "track"
             VNone [] "https://onlinetools.ups.com/ups.app/xml/Track"
             "https://wwwcie.ups.com/ups.app/xml/Track"
             "https://onlinetools.ups.com/ups.app/xml/Track"); reflexivity.
Defined.

Lemma in_transit_iff_witness :
  in_transit (Lib := lib_accepting) tracked = OK true.
Proof.
  destruct (in_transit_iff (Lib := lib_accepting) tracked three_activities)
    as (b & Hb & Hiff).
  - reflexivity.
  - repeat constructor.
  - rewrite Hb. f_equal. apply Hiff.
    exists (activity "I" "20131101"). split; [|reflexivity].
    apply elem_of_cons. by left.
Defined.

Lemma tracking_missing_path_witness :
  shipment_activities (Lib := lib_two_packages) tracked
    = Err (KeyError (VStr "Shipment")) /\
  delivered (Lib := lib_two_packages) tracked = Err (KeyError (VStr "Shipment")) /\
  in_transit (Lib := lib_two_packages) tracked = Err (KeyError (VStr "Shipment")).
Proof.
  eapply (tracking_missing_path (Lib := lib_two_packages) tracked); reflexivity.
Defined.

Lemma Shipment_init_success_witness :
  exists log, Shipment_init (Lib := lib_accepting) conn0 args_plain [] = (OK shipped, log) /\
    sent_action <$> log = ["ship_confirm"; "ship_accept"].
Proof.
  destruct (Shipment_init (Lib := lib_accepting) conn0 args_plain [])
    as [res log] eqn:Hinit.
  assert (res = OK shipped) as ->.
  { change res with (res, log).1. rewrite <- Hinit. reflexivity. }
  destruct (Shipment_init_success (Lib := lib_accepting) conn0 args_plain
              [] log shipped Hinit)
    as (req & d & D & u1 & b1 & u2 & b2 & _ & _ & _ & _ & Hlog & _).
  exists log. split; [done|]. rewrite Hlog. reflexivity.
Defined.

Lemma tracking_numbers_in_order_witness :
  tracking_numbers (Lib := lib_two_packages) shipped
    = OK [VStr "1Z001"; VStr "1Z002"].
Proof.
  destruct (tracking_numbers_in_order (Lib := lib_two_packages) shipped
    (accept_with (VList [VDict (pkg_result "1Z001" "aGVsbG8=");
                         VDict (pkg_result "1Z002" "aGVsbG8=")]))
    [VDict (pkg_result "1Z001" "aGVsbG8="); VDict (pkg_result "1Z002" "aGVsbG8=")])
    as (numbers & Hnumbers & Hlen & Hnth).
  - reflexivity.
  - reflexivity.
  - repeat constructor.
  - rewrite Hnumbers. f_equal.
    destruct (Hnth 0%nat _ eq_refl) as (n0 & Hn0 & Ht0).
    destruct (Hnth 1%nat _ eq_refl) as (n1 & Hn1 & Ht1).
    injection Ht0 as <-. injection Ht1 as <-.
    destruct numbers as [|x0 [|x1 [|x2 rest]]]; try discriminate.
    by injection Hn0 as ->; injection Hn1 as ->.
Defined.

Lemma get_label_of_list_witness :
  get_label (Lib := lib_two_packages) shipped = Err TypeError.
Proof.
  eapply (get_label_of_list (Lib := lib_two_packages) shipped); reflexivity.
Defined.

Lemma required_address_fields_witness :
  getitem_path req_full (shipment_path ++ ["ShipTo"; "PhoneNumber"]) = OK VNone /\
  getitem_path req_full (shipment_path ++ ["Shipper"; "EMailAddress"])
    = OK (VStr "").
Proof.
  destruct (required_address_fields conn0 args_full req_full eq_refl)
    as (f & t & Hf & Ht & _ & _ & Hphone & Hemail & _).
  injection Hf as <-. injection Ht as <-.
  split; [exact Hphone | exact Hemail].
Defined.

Lemma reference_numbers_in_document_witness :
  shipment_entry "Description" req_full = OK (VStr "two books") /\
  shipment_entry "ReferenceNumber" req_full =
    OK (VList [VDict {[ "Code" := VInt 1; "Value" := VStr "PO-77" ]}]).
Proof.
  destruct (reference_numbers_in_document conn0 args_full req_full eq_refl eq_refl)
    as (cf & ct & items & _ & _ & _ & Hitems & Hdesc & Hrefs & _).
  injection Hitems as <-. split; [exact Hdesc | exact Hrefs].
Defined.

Lemma package_results_of_shipment_witness :
  package_results (Lib := lib_accepting) shipped =
  OK [VDict {[ "label" := VStr "aGVsbG8="; "label_format" := VStr "GIF";
               "tracking_number" := VStr "1Z999" ]}].
Proof.
  destruct (Shipment_init (Lib := lib_accepting) conn0 args_plain [])
    as [res log] eqn:Hinit.
  assert (res = OK shipped) as ->.
  { change res with (res, log).1. rewrite <- Hinit. reflexivity. }
  pose proof (package_results_of_shipment (Lib := lib_accepting) conn0 args_plain
           [] log shipped
           (accept_with (VDict (pkg_result "1Z999" "aGVsbG8=")))
           (pkg_result "1Z999" "aGVsbG8=")
           {[ "LabelImageFormat" := VDict {[ "Code" := VStr "GIF" ]};
              "GraphicImage" := VStr "aGVsbG8=" ]}
           {[ "Code" := VStr "GIF" ]}
           (VStr "aGVsbG8=") (VStr "1Z999") Hinit
           eq_refl eq_refl eq_refl eq_refl eq_refl eq_refl) as H.
  rewrite H. reflexivity.
Defined.
